(** * Loan offer service: validation rules, EMI and amortization schedule

    A shallow embedding of the service layer of the loan-offer API
    ([validateToken], [validateLoanRequest], [processLoanOffer],
    [calculateEMI], [generateAmortizationSchedule]), of the configuration
    it reads and of the response helpers it calls, together with the
    properties of the specification that can be settled on it.

    JavaScript numbers are IEEE 754 binary64 values and are modelled by
    Rocq's primitive floats, whose [+], [-], [*], [/] and comparisons are
    the IEEE operations.  The ECMAScript built-ins the service uses
    ([Math.round], [Math.max], [Math.pow], [Number::toString],
    [RegExp.prototype.test], property reads, [ToBoolean], [ToString]) are
    written out from the language standard. *)

From Stdlib Require Import ZArith List Bool Lia Floats String Ascii DecimalString.
Import ListNotations.

Set Warnings "-inexact-float,-register-all".

(** ** ECMAScript numbers *)

Module Num.
Local Open Scope float_scope.

(** The binary64 value of an integer (exact below 2^53, rounded to nearest
    even above). *)
Definition of_Z (z : Z) : float :=
  SF2Prim (binary_normalize prec emax z 0 false).

(** [x] is a finite number with no fractional part. *)
Definition is_integral (x : float) : bool :=
  match Prim2SF x with
  | S754_finite _ m e => (0 <=? e)%Z || (Z.pos m mod 2 ^ (- e) =? 0)%Z
  | S754_zero _ => true
  | _ => false
  end.

Definition is_odd_integer (x : float) : bool :=
  match Prim2SF x with
  | S754_finite _ m e =>
      if (0 <? e)%Z then false
      else (Z.pos m mod 2 ^ (- e) =? 0)%Z && Z.odd (Z.pos m / 2 ^ (- e))
  | _ => false
  end.

(** [Math.round]: NaN, the infinities, the zeros and integral values are
    returned unchanged; otherwise the nearest integer, a tie going towards
    +Infinity, and a result of zero keeping the sign of the argument.
    For [x = ±m·2^e] with [e < 0] the nearest integer is
    [floor (x + 1/2) = floor ((±2m + 2^-e) / 2^(1-e))]. *)
Definition Math_round (x : float) : float :=
  match Prim2SF x with
  | S754_finite s m e =>
      if (0 <=? e)%Z then x
      else
        let sm := if s then Z.neg m else Z.pos m in
        let q := Z.shiftr (2 * sm + 2 ^ (- e)) (- e + 1) in
        if (q =? 0)%Z then (if s then neg_zero else 0) else of_Z q
  | _ => x
  end.

(** [Math.max] of two numbers: NaN when either is NaN, and +0 is larger
    than -0. *)
Definition Math_max (a b : float) : float :=
  if is_nan a || is_nan b then nan
  else if a <? b then b
  else if b <? a then a
  else if get_sign a then b else a.

Section Exponentiate.
(** ECMAScript fixes [Math.pow] on the special values only; for a finite
    non-zero base and a finite non-zero exponent the result is "an
    implementation-approximated value", here the parameter [pow_approx]. *)
Variable pow_approx : float -> float -> float.

Definition Math_pow (base exponent : float) : float :=
  if is_nan exponent then nan
  else if exponent =? 0 then 1
  else if is_nan base then nan
  else if base =? infinity then (if 0 <? exponent then infinity else 0)
  else if base =? neg_infinity then
    if 0 <? exponent
    then (if is_odd_integer exponent then neg_infinity else infinity)
    else (if is_odd_integer exponent then neg_zero else 0)
  else if base =? 0 then
    if get_sign base then
      if 0 <? exponent
      then (if is_odd_integer exponent then neg_zero else 0)
      else (if is_odd_integer exponent then neg_infinity else infinity)
    else (if 0 <? exponent then 0 else infinity)
  else if exponent =? infinity then
    if 1 <? abs base then infinity else if abs base =? 1 then nan else 0
  else if exponent =? neg_infinity then
    if 1 <? abs base then 0 else if abs base =? 1 then nan else infinity
  else if (base <? 0) && negb (is_integral exponent) then nan
  else pow_approx base exponent.
End Exponentiate.

(** *** Number::toString (radix 10)

    The shortest decimal digit string [s] (of [k] digits, scaled by
    [10^(n-k)]) that reads back as the number, the closest one when
    several have that length, then laid out as the standard prescribes
    (plain digits for [k <= n <= 21], a decimal point inside for
    [0 < n <= 21], leading [0.] for [-6 < n <= 0], exponent form
    otherwise).  All the arithmetic is exact, on integers. *)
Section NumberToString.
Local Open Scope string_scope.
Local Open Scope Z_scope.

Definition decimal_digits (s : Z) : string :=
  NilZero.string_of_uint (N.to_uint (Z.to_N s)).

Fixpoint zeros (n : nat) : string :=
  match n with O => "" | S n' => "0" ++ zeros n' end.

(** The binary64 value nearest to [a / b] for [a, b > 0]: 64 quotient
    bits and a sticky bit, rounded once. *)
Definition round_ratio (a b : Z) : spec_float :=
  let K := Z.max 0 (Z.log2 b - Z.log2 a + 64) in
  let (q, r) := Z.div_eucl (Z.shiftl a K) b in
  binary_normalize prec emax (2 * q + (if r =? 0 then 0 else 1)) (- K - 1) false.

(** The number is [m·2^e = num / den]. *)
Variables (m : positive) (e : Z).

Definition num : Z := if 0 <=? e then Z.pos m * 2 ^ e else Z.pos m.
Definition den : Z := if 0 <=? e then 1 else 2 ^ (- e).

Definition pow10_le (n : Z) : bool :=
  if 0 <=? n then 10 ^ n * den <=? num else den <=? num * 10 ^ (- n).

Fixpoint magnitude (fuel : nat) (n : Z) : Z :=
  match fuel with
  | O => n
  | S f => if pow10_le (n + 1) then magnitude f (n + 1) else n
  end.

(** [n0] with [10^(n0-1) <= m·2^e < 10^n0], found upwards from an
    under-estimate obtained from the binary logarithm. *)
Definition n0 : Z :=
  1 + magnitude 6 ((Z.log2 num - Z.log2 den) * 30103 / 100000 - 2).

Definition rounds_back (s p : Z) : bool :=
  let (a, b) := if 0 <=? p then (s * 10 ^ p, 1) else (s, 10 ^ (- p)) in
  match round_ratio a b with
  | S754_finite _ m' e' => Pos.eqb m' m && (e' =? e)
  | _ => false
  end.

(** The [k]-digit candidates are the two integers around
    [m·2^e / 10^(n0-k) = A / B]. *)
Definition candidate (k : Z) : option Z :=
  let p := n0 - k in
  let A := if 0 <=? p then num else num * 10 ^ (- p) in
  let B := if 0 <=? p then den * 10 ^ p else den in
  let lo := A / B in
  let hi := lo + 1 in
  let dlo := A - lo * B in
  let dhi := hi * B - A in
  match rounds_back lo p, rounds_back hi p with
  | true, true =>
      Some (if dlo <? dhi then lo else if dhi <? dlo then hi
            else if Z.even lo then lo else hi)
  | true, false => Some lo
  | false, true => Some hi
  | false, false => None
  end.

Fixpoint shortest (fuel : nat) (k : Z) : Z * Z :=
  match fuel with
  | O => (k, num * 10 ^ (k - n0) / den)
  | S f => match candidate k with
           | Some s => (k, s)
           | None => shortest f (k + 1)
           end
  end.

Definition positive_toString : string :=
  let (k0, s0) := shortest 17 1 in
  let '(k, s, n) := if s0 =? 10 ^ k0 then (1, 1, n0 + 1) else (k0, s0, n0) in
  let ds := decimal_digits s in
  if (k <=? n) && (n <=? 21) then ds ++ zeros (Z.to_nat (n - k))
  else if (0 <? n) && (n <=? 21) then
    substring 0 (Z.to_nat n) ds ++ "." ++ substring (Z.to_nat n) (Z.to_nat (k - n)) ds
  else if (-6 <? n) && (n <=? 0) then "0." ++ zeros (Z.to_nat (- n)) ++ ds
  else
    let c := n - 1 in
    let ex := (if c <? 0 then "-" else "+") ++ decimal_digits (Z.abs c) in
    if k =? 1 then ds ++ "e" ++ ex
    else substring 0 1 ds ++ "." ++ substring 1 (Z.to_nat (k - 1)) ds ++ "e" ++ ex.
End NumberToString.

Definition Number_toString (x : float) : string :=
  match Prim2SF x with
  | S754_nan => "NaN"
  | S754_zero _ => "0"
  | S754_infinity s => if s then "-Infinity" else "Infinity"
  | S754_finite s m e => ((if s then "-" else "") ++ positive_toString m e)%string
  end.
End Num.
Export Num.


(** ** ECMAScript values

    The values a parsed request body can hold: the JSON values, and
    [undefined] for what is absent.  An object is the list of its own
    properties (the first binding of a name is the property). *)

Inductive JsValue : Type :=
| JUndefined
| JNull
| JBool (b : bool)
| JNum (n : float)
| JStr (s : string)
| JArr (elements : list JsValue)
| JObj (properties : list (string * JsValue)).

(** A thrown exception.  The service can raise two: the [TypeError] of
    reading a property of [undefined] or [null], and the [TypeError] of
    converting to a string an object that has no usable [toString]; the
    messages are V8's wording. *)
Inductive JsError : Type :=
| TypeError (message : string).

Definition error_message (e : JsError) : string :=
  match e with TypeError m => m end.

(** The completion of an evaluation: a value, or a thrown exception. *)
Inductive JsResult (A : Type) : Type :=
| Normal (a : A)
| Throw (e : JsError).
Arguments Normal {A} a.
Arguments Throw {A} e.

Definition bindR {A B} (r : JsResult A) (k : A -> JsResult B) : JsResult B :=
  match r with
  | Normal a => k a
  | Throw e => Throw e
  end.

Notation "x <- r ;; k" := (bindR r (fun x => k))
  (at level 61, r at next level, right associativity).

Section Values.
Local Open Scope string_scope.

Definition is_undefined (v : JsValue) : bool :=
  match v with JUndefined => true | _ => false end.

Definition is_null (v : JsValue) : bool :=
  match v with JNull => true | _ => false end.

(** [typeof v === "number"], with the number. *)
Definition as_number (v : JsValue) : option float :=
  match v with JNum n => Some n | _ => None end.

Definition ToBoolean (v : JsValue) : bool :=
  match v with
  | JUndefined | JNull => false
  | JBool b => b
  | JNum n => negb (PrimFloat.eqb n 0 || PrimFloat.is_nan n)
  | JStr s => negb (String.eqb s "")
  | JArr _ | JObj _ => true
  end.

(** Whether the object has an own property named [p]. *)
Definition has_own (p : string) (properties : list (string * JsValue)) : bool :=
  existsb (fun kv => String.eqb (fst kv) p) properties.

(** [ToString], which can throw.  An array is the comma-separated join of
    its elements ([Array.prototype.join]), an [undefined] or [null] element
    contributing the empty string and any other element its own [ToString],
    taken from left to right.  An object is converted by
    [OrdinaryToPrimitive] with hint string, which calls its [toString] if
    that is callable and else its [valueOf].  A parsed body holds no
    function: an own [toString] member hides [Object.prototype.toString]
    behind a value that cannot be called, and [valueOf] gives no primitive
    either (an own one cannot be called, the inherited one returns the
    object itself), so the conversion throws a [TypeError].  Without an own
    [toString] the inherited one answers "[object Object]". *)
Fixpoint ToString (v : JsValue) : JsResult string :=
  match v with
  | JUndefined => Normal "undefined"
  | JNull => Normal "null"
  | JBool b => Normal (if b then "true" else "false")
  | JNum n => Normal (Number_toString n)
  | JStr s => Normal s
  | JArr elements =>
      (fix join (l : list JsValue) : JsResult string :=
         match l with
         | [] => Normal ""
         | x :: rest =>
             sx <- match x with
                   | JUndefined | JNull => Normal ""
                   | _ => ToString x
                   end ;;
             match rest with
             | [] => Normal sx
             | _ :: _ => sr <- join rest ;; Normal (sx ++ "," ++ sr)
             end
         end) elements
  | JObj properties =>
      if has_own "toString" properties
      then Throw (TypeError "Cannot convert object to primitive value")
      else Normal "[object Object]"
  end.

Fixpoint lookup (p : string) (properties : list (string * JsValue)) : JsValue :=
  match properties with
  | [] => JUndefined
  | (k, v) :: rest => if String.eqb k p then v else lookup p rest
  end.

(** The property read [o.p] / [o[p]].  Only own properties of objects are
    modelled: none of the names the service reads is an inherited one, an
    array index or [length]. *)
Definition Get (o : JsValue) (p : string) : JsResult JsValue :=
  match o with
  | JUndefined =>
      Throw (TypeError ("Cannot read properties of undefined (reading '" ++ p ++ "')"))
  | JNull =>
      Throw (TypeError ("Cannot read properties of null (reading '" ++ p ++ "')"))
  | JObj properties => Normal (lookup p properties)
  | _ => Normal JUndefined
  end.
End Values.

(** ** Regular expressions

    The two patterns of the configuration are anchored sequences of
    quantified atoms, an atom being a literal character or the class
    [[0-9]]: [/^ORD[0-9]{6,10}$/] is [O{1,1} R{1,1} D{1,1} [0-9]{6,10}]
    between [^] and [$].  Neither carries a flag, so [test] keeps no state
    and [$] is the end of the input. *)

Inductive Atom : Type :=
| Lit (c : ascii)
| Digit.

Record Quantified : Type := {
  atom : Atom;
  at_least : nat;
  at_most : nat
}.

Definition RegExp : Type := list Quantified.

Definition atom_matches (a : Atom) (c : ascii) : bool :=
  match a with
  | Lit l => Ascii.eqb l c
  | Digit => (48 <=? nat_of_ascii c)%nat && (nat_of_ascii c <=? 57)%nat
  end.

(** Between [lo] and [hi] characters of [a], then the continuation [k]. *)
Fixpoint match_rep (a : Atom) (lo hi : nat) (k : string -> bool) (s : string) : bool :=
  match hi with
  | O => Nat.eqb lo 0 && k s
  | S hi' =>
      (Nat.eqb lo 0 && k s)
      || match s with
         | String c s' => atom_matches a c && match_rep a (Nat.pred lo) hi' k s'
         | EmptyString => false
         end
  end.

Definition regexp_match (re : RegExp) (s : string) : bool :=
  fold_right (fun q k => match_rep (atom q) (at_least q) (at_most q) k)
             (fun rest => String.eqb rest EmptyString) re s.

(** [re.test(v)]: the argument is converted with [ToString], whose
    exception, if any, is that of [test]. *)
Definition RegExp_test (re : RegExp) (v : JsValue) : JsResult bool :=
  s <- ToString v ;;
  Normal (regexp_match re s).

Definition literal (s : string) : RegExp :=
  map (fun c => {| atom := Lit c; at_least := 1; at_most := 1 |}) (list_ascii_of_string s).

(** ** config/config.js *)

Module Config.
Local Open Scope string_scope.
Local Open Scope float_scope.

Record StatusCodes : Type := { success : string; error : string }.

Record ErrorCodes : Type := {
  invalidToken : string;
  missingParameters : string;
  invalidLoanAmount : string;
  invalidTenure : string;
  serverError : string
}.

Record Loan : Type := {
  minAmount : float;
  maxAmount : float;
  minTenure : float;
  maxTenure : float;
  minRoi : float;
  maxRoi : float
}.

Record Validation : Type := {
  orderIdRegex : RegExp;
  transactionIdRegex : RegExp
}.

Record Config : Type := {
  statusCodes : StatusCodes;
  errorCodes : ErrorCodes;
  loan : Loan;
  validation : Validation
}.

(** The groups of settings the service and the response helpers read; the
    environment-specific overrides merged on top change none of them. *)
Definition config : Config := {|
  statusCodes := {| success := "SR"; error := "ER" |};
  errorCodes := {|
    invalidToken := "E001";
    missingParameters := "E002";
    invalidLoanAmount := "E003";
    invalidTenure := "E004";
    serverError := "E999"
  |};
  loan := {|
    minAmount := 10000;
    maxAmount := 10000000;
    minTenure := 3;
    maxTenure := 84;
    minRoi := 5.5;
    maxRoi := 24.0
  |};
  validation := {|
    orderIdRegex :=
      (literal "ORD" ++ [{| atom := Digit; at_least := 6; at_most := 10 |}])%list;
    transactionIdRegex :=
      (literal "TXN" ++ [{| atom := Digit; at_least := 4; at_most := 12 |}])%list
  |}
|}.
End Config.
Import Config.

(** ** The process around the service

    What the service reads or writes outside its arguments: the
    [NODE_ENV] variable of the process environment (read by [serverError]),
    and a log of what [processLoanOffer] does: the service functions it
    invokes and the lines it writes with [console.error]. *)

Inductive ServiceFn : Type :=
| FnValidateToken
| FnValidateLoanRequest
| FnCalculateEMI
| FnGenerateAmortizationSchedule.

Inductive Event : Type :=
| Call (f : ServiceFn)
| ConsoleError (label : string) (e : JsError).

Record World : Type := {
  NODE_ENV : option string;
  events : list Event
}.

Definition record (ev : Event) (w : World) : World :=
  {| NODE_ENV := NODE_ENV w; events := events w ++ [ev] |}.

(** Computations that may throw and that act on the world. *)
Definition M (A : Type) : Type := World -> JsResult A * World.

Definition retM {A} (a : A) : M A := fun w => (Normal a, w).

Definition bindM {A B} (m : M A) (k : A -> M B) : M B :=
  fun w =>
    match m w with
    | (Normal a, w') => k a w'
    | (Throw e, w') => (Throw e, w')
    end.

Notation "x <~ m ;; k" := (bindM m (fun x => k))
  (at level 61, m at next level, right associativity).

Definition liftM {A} (r : JsResult A) : M A := fun w => (r, w).

(** The invocation of a service function: logged, then its completion. *)
Definition call {A} (f : ServiceFn) (r : JsResult A) : M A :=
  fun w => (r, record (Call f) w).

Definition console_error (label : string) (e : JsError) : M unit :=
  fun w => (Normal tt, record (ConsoleError label e) w).

(** [try { body } catch (error) { handler }] *)
Definition try_catch {A} (body : M A) (handler : JsError -> M A) : M A :=
  fun w =>
    match body w with
    | (Normal a, w') => (Normal a, w')
    | (Throw e, w') => handler e w'
    end.

(** ** utils/responseHelper.js *)

Module responseHelper.
Local Open Scope string_scope.

(** The [data] member of the responses the service builds. *)
Record ResponseData : Type := {
  errorMessage : string;
  errorCode : option string;
  redirectionURL : JsValue
}.

Record Response : Type := {
  data : ResponseData;
  statusMessage : string;
  statusCode : string
}.

(** [successResponse(data)], the message defaulting to "Success". *)
Definition successResponse (d : ResponseData) : Response := {|
  data := d;
  statusMessage := "Success";
  statusCode := config.(statusCodes).(success)
|}.

Definition errorResponse (code : option string) (message : string) : Response := {|
  data := {| errorMessage := message; errorCode := code; redirectionURL := JStr "" |};
  statusMessage := "Error";
  statusCode := config.(statusCodes).(error)
|}.

Definition validationError (message : string) : Response :=
  errorResponse (Some config.(errorCodes).(missingParameters)) message.

Definition authError (message : string) : Response :=
  errorResponse (Some config.(errorCodes).(invalidToken)) message.

(** [serverError(error)]: the message is hidden in production; an empty
    [error.message] is replaced. *)
Definition serverError (e : JsError) : M Response :=
  fun w =>
    let message :=
      match NODE_ENV w with
      | Some "production" => "Internal server error"
      | _ => if String.eqb (error_message e) "" then "Unknown server error"
             else error_message e
      end in
    (Normal (errorResponse (Some config.(errorCodes).(serverError)) message), w).
End responseHelper.

(** ** The loan service *)

(** The result of [validateLoanRequest]; a successful one has no
    [errorCode] member. *)
Record ValidationResult : Type := {
  isValid : bool;
  errorCode : option string;
  message : string
}.

(** The request object handed to [processLoanOffer]: [token] is a string,
    or absent ([None]: the member is missing, [undefined] or [null]);
    [data] is any value. *)
Record LoanOfferRequest : Type := {
  token : option string;
  data : JsValue
}.

(** One row of the amortization schedule. *)
Record AmortizationEntry : Type := {
  month : float;
  emi : float;
  principalPaid : float;
  interestPaid : float;
  balance : float
}.

Section Service.
Local Open Scope string_scope.

(** [token && token.length >= 32], as the boolean its caller tests. *)
Definition validateToken (token : option string) : bool :=
  match token with
  | None => false
  | Some t => negb (String.eqb t "") && (32 <=? String.length t)%nat
  end.

Definition requiredFields : list string :=
  [ "orderId"; "transactionId"; "loanAmount"; "roi"; "tenure"; "downpayment";
    "processingFee"; "tvsTransactionId" ].

Definition invalid (code message : string) : ValidationResult :=
  {| isValid := false; errorCode := Some code; message := message |}.

(** The [for (const field of requiredFields)] loop: the first field that is
    [undefined] or [null], if any. *)
Fixpoint first_missing (data : JsValue) (fields : list string) : JsResult (option string) :=
  match fields with
  | [] => Normal None
  | field :: rest =>
      v <- Get data field ;;
      if is_undefined v || is_null v then Normal (Some field)
      else first_missing data rest
  end.

(** [typeof v !== "number" || v < lo || v > hi] *)
Definition out_of_range (v : JsValue) (lo hi : float) : bool :=
  match as_number v with
  | None => true
  | Some n => PrimFloat.ltb n lo || PrimFloat.ltb hi n
  end.

Definition validateLoanRequest (data : JsValue) : JsResult ValidationResult :=
  missing <- first_missing data requiredFields ;;
  match missing with
  | Some field =>
      Normal (invalid config.(errorCodes).(missingParameters)
                      ("Missing required parameter: " ++ field))
  | None =>
  orderId <- Get data "orderId" ;;
  orderIdOk <- RegExp_test config.(validation).(orderIdRegex) orderId ;;
  if negb orderIdOk then
    Normal (invalid config.(errorCodes).(missingParameters)
                    "Order ID format is invalid")
  else
  transactionId <- Get data "transactionId" ;;
  transactionIdOk <- RegExp_test config.(validation).(transactionIdRegex) transactionId ;;
  if negb transactionIdOk then
    Normal (invalid config.(errorCodes).(missingParameters)
                    "Transaction ID format is invalid")
  else
  loanAmount <- Get data "loanAmount" ;;
  if out_of_range loanAmount config.(loan).(minAmount) config.(loan).(maxAmount) then
    Normal (invalid config.(errorCodes).(invalidLoanAmount)
                    ("Loan amount must be between "
                       ++ Number_toString config.(loan).(minAmount) ++ " and "
                       ++ Number_toString config.(loan).(maxAmount)))
  else
  tenure <- Get data "tenure" ;;
  if out_of_range tenure config.(loan).(minTenure) config.(loan).(maxTenure) then
    Normal (invalid config.(errorCodes).(invalidTenure)
                    ("Tenure must be between "
                       ++ Number_toString config.(loan).(minTenure) ++ " and "
                       ++ Number_toString config.(loan).(maxTenure) ++ " months"))
  else
  roi <- Get data "roi" ;;
  if out_of_range roi config.(loan).(minRoi) config.(loan).(maxRoi) then
    Normal (invalid config.(errorCodes).(missingParameters)
                    ("ROI must be between "
                       ++ Number_toString config.(loan).(minRoi) ++ "% and "
                       ++ Number_toString config.(loan).(maxRoi) ++ "%"))
  else
  downpayment <- Get data "downpayment" ;;
  if match as_number downpayment with
     | None => true
     | Some n => PrimFloat.ltb n 0
     end
  then
    Normal (invalid config.(errorCodes).(missingParameters)
                    "Downpayment must be a non-negative number")
  else
    Normal {| isValid := true; errorCode := None; message := "" |}
  end.

(** [processLoanOffer]: the whole body runs inside [try]; the handler logs
    the exception and answers with [serverError]. *)
Definition processLoanOffer (requestData : LoanOfferRequest) : M responseHelper.Response :=
  try_catch
    (tokenOk <~ call FnValidateToken (Normal (validateToken requestData.(token))) ;;
     if negb tokenOk then
       retM (responseHelper.authError "Invalid or expired token")
     else
     validationResult <~ call FnValidateLoanRequest
                              (validateLoanRequest requestData.(data)) ;;
     if negb validationResult.(isValid) then
       retM (responseHelper.errorResponse validationResult.(errorCode)
                                          validationResult.(message))
     else
     backRedirectionURL <~ liftM (Get requestData.(data) "backRedirectionURL") ;;
     retM (responseHelper.successResponse
             {| responseHelper.errorMessage := "";
                responseHelper.errorCode := Some "";
                responseHelper.redirectionURL :=
                  if ToBoolean backRedirectionURL then backRedirectionURL
                  else JStr "" |}))
    (fun error =>
       _ <~ console_error "Error processing loan offer:" error ;;
       responseHelper.serverError error).
End Service.

Section Calculator.
Local Open Scope float_scope.

(** The engine's [Math.pow] on ordinary arguments (see [Math_pow]). *)
Variable pow_approx : float -> float -> float.

Definition calculateEMI (principal roi tenure : float) : float :=
  let monthlyRate := roi / (12 * 100) in
  let emi := principal * monthlyRate * Math_pow pow_approx (1 + monthlyRate) tenure
             / (Math_pow pow_approx (1 + monthlyRate) tenure - 1) in
  Math_round (emi * 100) / 100.

(** The [for (let month = 1; month <= tenure; month++)] loop, from [month]
    on and with the running [balance]; it pushes one entry per turn.
    [None] when [fuel] turns do not reach the end of the loop. *)
Fixpoint schedule_loop (fuel : nat) (monthlyRate emi tenure month balance : float)
  : option (list AmortizationEntry) :=
  match fuel with
  | O => None
  | S fuel' =>
      if month <=? tenure then
        let interest := balance * monthlyRate in
        let principalPaid := emi - interest in
        let balance := balance - principalPaid in
        option_map
          (cons {| month := month;
                   emi := Math_round (emi * 100) / 100;
                   principalPaid := Math_round (principalPaid * 100) / 100;
                   interestPaid := Math_round (interest * 100) / 100;
                   balance := Math_max 0 (Math_round (balance * 100) / 100) |})
          (schedule_loop fuel' monthlyRate emi tenure (month + 1) balance)
      else Some []
  end.

Definition generateAmortizationSchedule (fuel : nat) (principal roi tenure : float)
  : option (list AmortizationEntry) :=
  let monthlyRate := roi / (12 * 100) in
  let emi := calculateEMI principal roi tenure in
  schedule_loop fuel monthlyRate emi tenure 1 principal.
End Calculator.

(** ** The schedule as an array of the heap

    [generateAmortizationSchedule] makes its result with
    [const schedule = []], fills it with [schedule.push(...)] and returns
    the reference.  The heap holds the arrays the program has made so far,
    those returned by earlier calls included, which their holders may have
    changed since; a reference is the position of an array in it.  Here the
    function takes the heap it is called in and returns the reference with
    the heap it leaves; [generateAmortizationSchedule] above is the list of
    the entries pushed. *)

Module Store.
Definition Heap : Type := list (list AmortizationEntry).

Definition Ref : Type := nat.

(** [[]]: a new, empty array. *)
Definition array_new (h : Heap) : Ref * Heap := (List.length h, (h ++ [[]])%list).

(** [ref.push(entry)]; a reference held by the program lies in the heap,
    and on any other number the heap is left as it is. *)
Fixpoint array_push (ref : Ref) (entry : AmortizationEntry) (h : Heap) : Heap :=
  match h, ref with
  | [], _ => []
  | a :: rest, O => (a ++ [entry])%list :: rest
  | a :: rest, S ref' => a :: array_push ref' entry rest
  end.

Definition array_read (ref : Ref) (h : Heap) : option (list AmortizationEntry) :=
  nth_error h ref.

Section Scheduler.
Local Open Scope float_scope.
Variable pow_approx : float -> float -> float.

Fixpoint schedule_loop (fuel : nat) (monthlyRate emi tenure month balance : float)
    (schedule : Ref) (h : Heap) : option Heap :=
  match fuel with
  | O => None
  | S fuel' =>
      if month <=? tenure then
        let interest := balance * monthlyRate in
        let principalPaid := emi - interest in
        let balance := balance - principalPaid in
        schedule_loop fuel' monthlyRate emi tenure (month + 1) balance schedule
          (array_push schedule
             {| month := month;
                emi := Math_round (emi * 100) / 100;
                principalPaid := Math_round (principalPaid * 100) / 100;
                interestPaid := Math_round (interest * 100) / 100;
                balance := Math_max 0 (Math_round (balance * 100) / 100) |} h)
      else Some h
  end.

Definition generateAmortizationSchedule (fuel : nat) (principal roi tenure : float)
    (h : Heap) : option (Ref * Heap) :=
  let monthlyRate := roi / (12 * 100) in
  let emi := calculateEMI pow_approx principal roi tenure in
  let (schedule, h1) := array_new h in
  option_map (fun h2 => (schedule, h2))
             (schedule_loop fuel monthlyRate emi tenure 1 principal schedule h1).
End Scheduler.
End Store.

(** ** A reference engine

    An instance of [pow_approx] on which the service can be run: for an
    integral exponent [0 < n <= 4096] the exact power [m^n·2^(e·n)] rounded
    once to nearest (the correctly rounded result); otherwise
    [exp (y · ln x)] in 256-bit fixed point, rounded once. *)

Module Reference.
Local Open Scope Z_scope.

Definition fx : Z := 256.
Definition fx_mul (a b : Z) : Z := Z.shiftr (a * b) fx.
Definition fx_div (a b : Z) : Z := Z.shiftl a fx / b.

(** [atanh z = z + z^3/3 + z^5/5 + ...], for [0 <= z <= 1/3]. *)
Fixpoint atanh_series (n : nat) (k zk z2 acc : Z) : Z :=
  match n with
  | O => acc
  | S n' => atanh_series n' (k + 2) (fx_mul zk z2) z2 (acc + zk / k)
  end.

Definition fx_atanh (z : Z) : Z := atanh_series 90 1 z (fx_mul z z) 0.

Definition fx_ln2 : Z := 2 * fx_atanh (fx_div 1 3).

(** [ln (m·2^e)] for [m > 0]: with [d = log2 m], [m / 2^d] lies in [1, 2)
    and [ln t = 2 atanh ((t - 1) / (t + 1))]. *)
Definition fx_ln (m e : Z) : Z :=
  let d := Z.log2 m in
  2 * fx_atanh (fx_div (m - 2 ^ d) (m + 2 ^ d)) + (e + d) * fx_ln2.

Fixpoint exp_series (n : nat) (i term r acc : Z) : Z :=
  match n with
  | O => acc
  | S n' => exp_series n' (i + 1) (fx_mul term r / i) r (acc + term)
  end.

(** [exp r] for [0 <= r < ln 2]. *)
Definition fx_exp (r : Z) : Z := exp_series 70 1 (2 ^ fx) r 0.

(** [(mb·2^eb) ^ (±my·2^ey)]: [t = y · ln x = k · ln 2 + r], and the
    result is [exp r · 2^k]. *)
Definition pow_fx (mb eb : Z) (sy : bool) (my ey : Z) : spec_float :=
  let t := fx_ln mb eb * my in
  let t := if 0 <=? ey then Z.shiftl t ey else Z.shiftr t (- ey) in
  let t := if sy then - t else t in
  let k := t / fx_ln2 in
  if 2000 <? k then S754_infinity false
  else if k <? -2000 then S754_zero false
  else binary_normalize prec emax (fx_exp (t - k * fx_ln2)) (k - fx) false.

Definition pow_approx (base exponent : float) : float :=
  match Prim2SF base, Prim2SF exponent with
  | S754_finite sb mb eb, S754_finite sy my ey =>
      let r :=
        if is_integral exponent && negb sy && PrimFloat.leb exponent 4096
        then let n := if 0 <=? ey then Z.pos my * 2 ^ ey else Z.pos my / 2 ^ (- ey) in
             binary_normalize prec emax (Z.pos mb ^ n) (eb * n) false
        else pow_fx (Z.pos mb) eb sy (Z.pos my) ey in
      SF2Prim (if sb && is_odd_integer exponent then SFopp r else r)
  | _, _ => nan
  end.
End Reference.

(** ** The validation rules, as the specification lists them

    The checks in the order the specification gives: the presence of each
    required field, the format of [orderId], the format of [transactionId],
    the range of [loanAmount], of [tenure], of [roi], and the sign of
    [downpayment]; the result is that of the first rule that fails.
    Evaluating a format rule converts the identifier to a string and can
    throw; a rule is evaluated only when every rule before it has passed. *)

Section Rules.
Local Open Scope string_scope.

Inductive Rule : Type :=
| RequiredField (field : string)
| OrderIdFormat
| TransactionIdFormat
| LoanAmountRange
| TenureRange
| RoiRange
| DownpaymentNonNegative.

Definition checks : list Rule :=
  (map RequiredField requiredFields
   ++ [OrderIdFormat; TransactionIdFormat; LoanAmountRange; TenureRange; RoiRange;
       DownpaymentNonNegative])%list.

Definition fails (properties : list (string * JsValue)) (r : Rule) : JsResult bool :=
  match r with
  | RequiredField field =>
      Normal (is_undefined (lookup field properties) || is_null (lookup field properties))
  | OrderIdFormat =>
      ok <- RegExp_test config.(validation).(orderIdRegex) (lookup "orderId" properties) ;;
      Normal (negb ok)
  | TransactionIdFormat =>
      ok <- RegExp_test config.(validation).(transactionIdRegex)
                        (lookup "transactionId" properties) ;;
      Normal (negb ok)
  | LoanAmountRange =>
      Normal (out_of_range (lookup "loanAmount" properties)
                           config.(loan).(minAmount) config.(loan).(maxAmount))
  | TenureRange =>
      Normal (out_of_range (lookup "tenure" properties)
                           config.(loan).(minTenure) config.(loan).(maxTenure))
  | RoiRange =>
      Normal (out_of_range (lookup "roi" properties)
                           config.(loan).(minRoi) config.(loan).(maxRoi))
  | DownpaymentNonNegative =>
      Normal match as_number (lookup "downpayment" properties) with
             | None => true
             | Some n => PrimFloat.ltb n 0
             end
  end.

(** The error code each rule is reported with. *)
Definition rule_code (r : Rule) : string :=
  match r with
  | LoanAmountRange => config.(errorCodes).(invalidLoanAmount)
  | TenureRange => config.(errorCodes).(invalidTenure)
  | _ => config.(errorCodes).(missingParameters)
  end.

Definition rule_message (r : Rule) : string :=
  match r with
  | RequiredField field => "Missing required parameter: " ++ field
  | OrderIdFormat => "Order ID format is invalid"
  | TransactionIdFormat => "Transaction ID format is invalid"
  | LoanAmountRange => "Loan amount must be between 10000 and 10000000"
  | TenureRange => "Tenure must be between 3 and 84 months"
  | RoiRange => "ROI must be between 5.5% and 24%"
  | DownpaymentNonNegative => "Downpayment must be a non-negative number"
  end.

Definition verdict (failed : option Rule) : ValidationResult :=
  match failed with
  | Some r => invalid (rule_code r) (rule_message r)
  | None => {| isValid := true; errorCode := None; message := "" |}
  end.

(** The first of [rules] that fails, the rules being evaluated in order
    up to that one; an exception of a rule that is reached ends the
    evaluation. *)
Fixpoint first_of (properties : list (string * JsValue)) (rules : list Rule)
  : JsResult (option Rule) :=
  match rules with
  | [] => Normal None
  | r :: rest =>
      failed <- fails properties r ;;
      if failed then Normal (Some r) else first_of properties rest
  end.

Definition first_failing (properties : list (string * JsValue)) : JsResult (option Rule) :=
  first_of properties checks.

(** An object whose own [toString] member makes [ToString] throw. *)
Definition unprintable : JsValue := JObj [("toString", JNum 1)].

(** A well-formed request, a token of 32 characters and a process with
    nothing logged, for the examples. *)
Definition sample_data : list (string * JsValue) :=
  [ ("orderId", JStr "ORD123456"); ("transactionId", JStr "TXN12345");
    ("loanAmount", JNum 100000); ("roi", JNum 12); ("tenure", JNum 12);
    ("downpayment", JNum 5000); ("processingFee", JNum 500);
    ("tvsTransactionId", JStr "TVS0001") ].

Definition sample_token : string := "0123456789abcdef0123456789abcdef".

Definition idle : World := {| NODE_ENV := None; events := [] |}.
End Rules.

(** ** The calculator, as the specification states it *)

Section CalculatorSpec.
Local Open Scope float_scope.

(** Rounding to two decimal places, the way the service writes it. *)
Definition round2 (x : float) : float := Math_round (x * 100) / 100.

(** [computeEmi] in the specification's words: the reducing-balance formula
    with [monthlyRate = annualRatePercent / 1200], rounded to two decimals. *)
Definition computeEmi_spec (pow : float -> float -> float)
    (principal annualRatePercent termMonths : float) : float :=
  let monthlyRate := annualRatePercent / 1200 in
  round2 (principal * monthlyRate * pow (1 + monthlyRate) termMonths
          / (pow (1 + monthlyRate) termMonths - 1)).

Fixpoint iterate {A} (f : A -> A) (n : nat) (x : A) : list A :=
  match n with
  | O => []
  | S n' => f x :: iterate f n' (f x)
  end.

(** The floats at most [k] units in the last place away from [x]. *)
Definition ulp_ball (k : nat) (x : float) : list float :=
  x :: iterate next_up k x ++ iterate next_down k x.

(** [schedule.reduce((sum, entry) => sum + entry.principalPaid, 0)] *)
Definition sum_principalPaid (schedule : list AmortizationEntry) : float :=
  fold_left (fun sum entry => sum + principalPaid entry) schedule 0.

(** The [balance] of the last entry. *)
Definition final_balance (schedule : list AmortizationEntry) : option float :=
  last (map (fun entry => Some (balance entry)) schedule) None.

(** The property of the specification: the principal parts add up to the
    principal within one cent and the last balance is 0.00. *)
Definition within_cent_and_settled (principal : float)
    (schedule : list AmortizationEntry) : bool :=
  (abs (sum_principalPaid schedule - principal) <=? 0.01)
  && match final_balance schedule with
     | Some b => b =? 0
     | None => false
     end.

(** The value of [month] after [k] turns of the loop. *)
Definition month_after (k : nat) : float := Nat.iter k (fun m => m + 1) 1.

(** For every tenure [n <= bound] the loop test [month <= n] holds at turn
    [k] exactly when [k < n]: the counter is exact on that range. *)
Definition month_table_ok (bound : nat) : bool :=
  forallb (fun n =>
    forallb (fun k => Bool.eqb (month_after k <=? of_Z (Z.of_nat n)) (k <? n)%nat)
            (seq 0 (S n)))
    (seq 0 (S bound)).
End CalculatorSpec.

(** ** The HTTP layer: middleware/authMiddleware.js, the loan controller and
    the routes

    A handler receives the request and answers through [res.status(..).json(..)]
    or hands over to the next handler; here it returns its reply, and the
    next handler is a continuation.  [Date.now()] is an input: [clock k] is
    the value of its [k]-th call during the request. *)

Module Http.
Local Open Scope string_scope.

(** [req.user], as [authenticateToken] attaches it. *)
Record User : Type := {
  id : string;
  user_token : string
}.

(** The request: the parsed body, if any, the [action] query parameter and
    the user attached by the middleware. *)
Record Request : Type := {
  body : option LoanOfferRequest;
  action : option string;
  user : option User
}.

(** [successResponse({ message, valid })], the answer of
    [validateLoanDetails] to valid loan data. *)
Record Validated : Type := {
  validated_message : string;
  valid : bool;
  validated_statusMessage : string;
  validated_statusCode : string
}.

Inductive Body : Type :=
| Envelope (r : responseHelper.Response)
| ValidatedBody (v : Validated).

(** [res.status(status).json(json)] *)
Record Reply : Type := {
  status : nat;
  json : Body
}.

Definition reply (status : nat) (r : responseHelper.Response) : Reply :=
  {| status := status; json := Envelope r |}.

(** The decoded payload of [verifyToken]. *)
Record Decoded : Type := {
  decoded_valid : bool;
  userId : string;
  issuedAt : float;
  expiresAt : float
}.

Definition includes (s sub : string) : bool :=
  match index 0 sub s with
  | Some _ => true
  | None => false
  end.

(** [token && typeof token === "string" && token.length >= 32] *)
Definition isValidTokenFormat (token : option string) : bool :=
  match token with
  | None => false
  | Some t => negb (String.eqb t "") && (32 <=? String.length t)%nat
  end.

Section Middleware.
(** The hexadecimal HMAC-SHA256 digest of the token under
    [config.auth.tokenSecret]. *)
Variable hmac_hex : string -> string.
Variable clock : nat -> float.

(** [verifyToken] on a string: neither the digest nor the rest of the [try]
    block can throw, the [catch] clause is not reached. *)
Definition verifyToken (token : string) : option Decoded :=
  let hash := hmac_hex token in
  if isValidTokenFormat (Some token) then
    Some {| decoded_valid := true;
            userId := "user_" ++ substring 0 10 hash;
            issuedAt := PrimFloat.sub (clock 0) (1000 * 60 * 30)%float;
            expiresAt := PrimFloat.add (clock 1) (1000 * 60 * 30)%float |}
  else None.

Definition authenticateToken (req : Request) (next : Request -> M Reply) : M Reply :=
  try_catch
    (match req.(body) with
     | None =>
         retM (reply 400 (responseHelper.errorResponse
                            (Some config.(errorCodes).(missingParameters))
                            "Request body is missing"))
     | Some b =>
         match b.(token) with
         | None | Some "" =>
             retM (reply 401 (responseHelper.authError "Authentication token is missing"))
         | Some t =>
             match verifyToken t with
             | None =>
                 retM (reply 401 (responseHelper.authError "Invalid or expired token"))
             | Some decodedToken =>
                 if PrimFloat.ltb decodedToken.(expiresAt) (clock 2) then
                   retM (reply 401 (responseHelper.authError "Token has expired"))
                 else
                   next {| body := req.(body); action := req.(action);
                           user := Some {| id := decodedToken.(userId);
                                           user_token := t |} |}
             end
         end
     end)
    (fun error =>
       _ <~ console_error "Authentication middleware error:" error ;;
       r <~ responseHelper.serverError error ;;
       retM (reply 500 r)).
End Middleware.

Definition requireAdmin (req : Request) (next : Request -> M Reply) : M Reply :=
  match req.(user) with
  | None => retM (reply 401 (responseHelper.authError "Authentication required"))
  | Some u =>
      if negb (includes u.(id) "admin") then
        retM (reply 403 (responseHelper.errorResponse
                           (Some "E403")
                           "Insufficient permissions to perform this action"))
      else next req
  end.

Definition rateLimiter (req : Request) (next : Request -> M Reply) : M Reply :=
  next req.

(** *** The loan controller *)

Definition processLoanOfferRequest (req : Request) : M Reply :=
  try_catch
    (match req.(body) with
     | None => retM (reply 400 (responseHelper.validationError "Request body is missing"))
     | Some b =>
         match b.(token) with
         | None | Some "" =>
             retM (reply 401 (responseHelper.authError "Authentication token is missing"))
         | Some _ =>
             if negb (ToBoolean b.(data)) then
               retM (reply 400 (responseHelper.validationError
                                  "Loan request data is missing"))
             else
               response <~ processLoanOffer b ;;
               let httpStatus :=
                 if String.eqb (responseHelper.statusCode response) "SR" then 200 else 400 in
               retM (reply httpStatus response)
         end
     end)
    (fun error =>
       _ <~ console_error "Error in loan offer controller:" error ;;
       r <~ responseHelper.serverError error ;;
       retM (reply 500 r)).

Definition validateLoanDetails (req : Request) : M Reply :=
  try_catch
    (match req.(body) with
     | None =>
         liftM (Throw (TypeError
           "Cannot destructure property 'data' of 'req.body' as it is undefined."))
     | Some b =>
         if negb (ToBoolean b.(data)) then
           retM (reply 400 (responseHelper.validationError "Loan data is missing"))
         else
           validationResult <~ liftM (validateLoanRequest b.(data)) ;;
           if negb validationResult.(isValid) then
             retM (reply 400 (responseHelper.errorResponse
                                validationResult.(errorCode)
                                validationResult.(message)))
           else
             retM {| status := 200;
                     json := ValidatedBody
                               {| validated_message := "Loan details are valid";
                                  valid := true;
                                  validated_statusMessage := "Success";
                                  validated_statusCode := config.(statusCodes).(success) |} |}
     end)
    (fun error =>
       _ <~ console_error "Error validating loan details:" error ;;
       r <~ responseHelper.serverError error ;;
       retM (reply 500 r)).

(** *** The routes *)

Section Routes.
Variable hmac_hex : string -> string.
Variable clock : nat -> float.

(** [POST /fkApiServices.do] *)
Definition route_fkApiServices (req : Request) : M Reply :=
  if match req.(action) with
     | Some a => String.eqb a "loanOffer"
     | None => false
     end
  then authenticateToken hmac_hex clock req (fun req' => processLoanOfferRequest req')
  else retM (reply 400 (responseHelper.errorResponse
                          (Some config.(errorCodes).(missingParameters))
                          "Unsupported action parameter")).

(** [POST /api/loan/validate] *)
Definition route_validate (req : Request) : M Reply :=
  authenticateToken hmac_hex clock req validateLoanDetails.

(** The middleware chain of [GET /api/admin/loan-stats], in front of a
    handler. *)
Definition route_admin (handler : Request -> M Reply) (req : Request) : M Reply :=
  authenticateToken hmac_hex clock req (fun req' => requireAdmin req' handler).
End Routes.
End Http.

(** ** Further notions used in the statements *)

Section StatementNotions.
Local Open Scope string_scope.

Definition is_digit (c : ascii) : bool := atom_matches Digit c.

Definition digits_only (s : string) : bool := forallb is_digit (list_ascii_of_string s).

(** The first character of a string that either identifier pattern can
    match. *)
Definition may_start_id (c : ascii) : bool := Ascii.eqb "O" c || Ascii.eqb "T" c.

(** The request has a valid token and loan data that the validator
    accepts. *)
Definition accepted (req : LoanOfferRequest) : bool :=
  validateToken req.(token)
  && match validateLoanRequest req.(data) with
     | Normal vr => isValid vr
     | Throw _ => false
     end.

(** [!token] *)
Definition token_missing (t : option string) : bool :=
  match t with
  | None => true
  | Some s => String.eqb s ""
  end.

(** The HTTP status [processLoanOfferRequest] answers with. *)
Definition controller_status (req : Http.Request) : nat :=
  match req.(Http.body) with
  | None => 400
  | Some b =>
      if token_missing b.(token) then 401
      else if negb (ToBoolean b.(data)) then 400
      else if accepted b then 200 else 400
  end.

(** The request as [authenticateToken] hands it on for the token [t]. *)
Definition authenticated (hmac_hex : string -> string) (req : Http.Request) (t : string)
  : Http.Request :=
  {| Http.body := req.(Http.body); Http.action := req.(Http.action);
     Http.user := Some {| Http.id := "user_" ++ substring 0 10 (hmac_hex t);
                          Http.user_token := t |} |}.

(** The clock did not advance by more than 30 minutes between its second
    and its third reading. *)
Definition no_clock_jump (clock : nat -> float) : Prop :=
  PrimFloat.ltb (PrimFloat.add (clock 1) (1000 * 60 * 30)%float) (clock 2) = false.

Definition is_hex (c : ascii) : bool :=
  existsb (Ascii.eqb c) (list_ascii_of_string "0123456789abcdef").

Definition hex_only (s : string) : bool := forallb is_hex (list_ascii_of_string s).

(** Up to [bound] turns the loop counter is the whole number [k + 1]. *)
Definition months_exact (bound : nat) : bool :=
  forallb (fun k => PrimFloat.Leibniz.eqb (month_after k) (of_Z (Z.of_nat (S k))))
          (seq 0 bound).

(** A digest and a clock for the examples: SHA-256 itself is not modelled,
    any string of hexadecimal digits stands for a digest. *)
Definition sample_digest (t : string) : string :=
  "9f86d081884c7d659a2feaa0c55ad015a3bf4f1b2b0b822cd15d6c15b0f00a08".

Definition sample_clock (k : nat) : float :=
  PrimFloat.add 1762150000000%float (of_Z (Z.of_nat k)).
End StatementNotions.

(** ** Sanity checks of the built-ins *)

Section Checks.
Local Open Scope float_scope.

Example Math_round_examples :
  map Math_round [2.5; -2.5; 0.49999999999999994; -0.5; 888487.887; -3.7; 1e300]
  = [3; -2; 0; neg_zero; 888488; -4; 1e300].
Proof. vm_compute. reflexivity. Qed.

Example Math_pow_reference_examples :
  map (fun '(b, e) => Math_pow Reference.pow_approx b e)
      [(1.01, 12); (1.02, 84); (2, 0.5); (10, -3); (-2, 3); (-2, -3); (1.5, 3.7);
       (7, 0); (1, infinity); (0, -1); (-8, 1 / 3)]
  = [1.1268250301319698; 5.277332136682; 1.4142135623730951; 0.001; -8; -0.125;
     4.482679184808753; 1; nan; infinity; nan].
Proof. vm_compute. reflexivity. Qed.

Example Number_toString_examples :
  map Number_toString
      [123456; 0.1; 1e21; 1e20; 5.5; 24.0; 1 / 3; 5e-324; 1.7976931348623157e308;
       0.000001; 0.0000001; -42.5; 0.1 + 0.2; 8884.88; nan; neg_infinity; neg_zero]
  = [ "123456"; "0.1"; "1e+21"; "100000000000000000000"; "5.5"; "24";
      "0.3333333333333333"; "5e-324"; "1.7976931348623157e+308"; "0.000001";
      "1e-7"; "-42.5"; "0.30000000000000004"; "8884.88"; "NaN"; "-Infinity"; "0" ]%string.
Proof. vm_compute. reflexivity. Qed.

Example RegExp_test_examples :
  map (RegExp_test config.(validation).(orderIdRegex))
      [JStr "ORD123456"; JStr "ORD123"; JStr "ORD12345678901"; JStr "ORD1234567890";
       JStr "xORD123456"; JStr "ORD12345a"; JNum 123456; JArr [JStr "ORD123456"];
       JObj []; JBool true; unprintable; JArr [JStr "ORD123456"; unprintable]]
  = [Normal true; Normal false; Normal false; Normal true; Normal false; Normal false;
     Normal false; Normal true; Normal false; Normal false;
     Throw (TypeError "Cannot convert object to primitive value");
     Throw (TypeError "Cannot convert object to primitive value")].
Proof. vm_compute. reflexivity. Qed.

Example ToString_examples :
  map ToString
      [JArr [JNum 1; JNull; JStr "a"; JArr [JBool true; JUndefined]];
       JObj [("a"%string, JNum 1)]; JArr []; JObj [("valueOf"%string, JNum 1)];
       JObj [("a"%string, JNull); ("toString"%string, JNull)]]
  = [Normal "1,,a,true,"%string; Normal "[object Object]"%string; Normal ""%string;
     Normal "[object Object]"%string;
     Throw (TypeError "Cannot convert object to primitive value")].
Proof. vm_compute. reflexivity. Qed.
End Checks.

(** ** Validation *)

Section ValidationFacts.
Local Open Scope string_scope.

Example sample_data_is_valid :
  validateLoanRequest (JObj sample_data)
  = Normal {| isValid := true; errorCode := None; message := "" |}.
Proof. vm_compute. reflexivity. Qed.

Example processLoanOffer_accepts_sample :
  processLoanOffer {| token := Some sample_token; data := JObj sample_data |} idle
  = (Normal (responseHelper.successResponse
               {| responseHelper.errorMessage := "";
                  responseHelper.errorCode := Some "";
                  responseHelper.redirectionURL := JStr "" |}),
     record (Call FnValidateLoanRequest) (record (Call FnValidateToken) idle)).
Proof. vm_compute. reflexivity. Qed.

(** A missing [data] makes the validator throw; [processLoanOffer] catches
    the exception, logs it and answers with the server error. *)
Example processLoanOffer_catches :
  processLoanOffer {| token := Some sample_token; data := JUndefined |} idle
  = (Normal (responseHelper.errorResponse (Some "E999")
               "Cannot read properties of undefined (reading 'orderId')"),
     record (ConsoleError "Error processing loan offer:"
               (TypeError "Cannot read properties of undefined (reading 'orderId')"))
       (record (Call FnValidateLoanRequest) (record (Call FnValidateToken) idle))).
Proof. vm_compute. reflexivity. Qed.

Lemma first_missing_object properties fields :
  first_missing (JObj properties) fields
  = Normal (find (fun f => is_undefined (lookup f properties)
                           || is_null (lookup f properties)) fields).
Proof.
  induction fields as [|f fields IH]; simpl; [reflexivity|].
  destruct (is_undefined (lookup f properties) || is_null (lookup f properties)); auto.
Qed.

Lemma first_of_required_prefix properties fields rest :
  first_of properties (map RequiredField fields ++ rest)
  = match find (fun f => is_undefined (lookup f properties)
                         || is_null (lookup f properties)) fields with
    | Some f => Normal (Some (RequiredField f))
    | None => first_of properties rest
    end.
Proof.
  induction fields as [|f fields IH]; simpl; [reflexivity|].
  destruct (is_undefined (lookup f properties) || is_null (lookup f properties)); auto.
Qed.

(** On an object, the validator completes as the in-order evaluation of
    [checks] does: with the verdict of the first rule that fails, or with
    the exception of a format rule that was reached. *)
Lemma validateLoanRequest_first_failing properties :
  validateLoanRequest (JObj properties)
  = (failed <- first_failing properties ;; Normal (verdict failed)).
Proof.
  unfold validateLoanRequest, first_failing, checks.
  rewrite first_missing_object, first_of_required_prefix.
  cbn [bindR].
  destruct (find _ requiredFields) as [f|]; [reflexivity|].
  cbn [Get bindR first_of fails].
  destruct (RegExp_test _ (lookup "orderId" properties)) as [[|]|e];
    cbn [bindR negb]; try reflexivity.
  destruct (RegExp_test _ (lookup "transactionId" properties)) as [[|]|e];
    cbn [bindR negb]; try reflexivity.
  destruct (out_of_range (lookup "loanAmount" properties) _ _); [reflexivity|].
  destruct (out_of_range (lookup "tenure" properties) _ _); [reflexivity|].
  destruct (out_of_range (lookup "roi" properties) _ _); [reflexivity|].
  destruct (as_number (lookup "downpayment" properties)) as [n|]; [|reflexivity].
  destruct (PrimFloat.ltb n 0); reflexivity.
Qed.

Lemma first_failing_required properties field :
  In field requiredFields -> fails properties (RequiredField field) = Normal true ->
  exists missing,
    In missing requiredFields
    /\ first_failing properties = Normal (Some (RequiredField missing)).
Proof.
  intros Hin Hf. unfold first_failing, checks. rewrite first_of_required_prefix.
  destruct (find _ requiredFields) as [m|] eqn:E.
  - exists m. split; [|reflexivity]. apply find_some in E. tauto.
  - exfalso. eapply find_none in E; [|exact Hin]. simpl in Hf, E. congruence.
Qed.

(** What is left of [checks] once every required field is there. *)
Lemma first_failing_present properties :
  (forall field, In field requiredFields ->
                 fails properties (RequiredField field) = Normal false) ->
  first_failing properties
  = first_of properties [OrderIdFormat; TransactionIdFormat; LoanAmountRange;
                         TenureRange; RoiRange; DownpaymentNonNegative].
Proof.
  intros Hreq. unfold first_failing, checks. rewrite first_of_required_prefix.
  destruct (find _ requiredFields) as [m|] eqn:F; [|reflexivity].
  apply find_some in F. destruct F as [Hin Hm].
  specialize (Hreq m Hin). simpl in Hreq. congruence.
Qed.

(** The rules after the two format rules cannot throw. *)
Lemma first_of_ranges properties :
  exists failed,
    first_of properties [LoanAmountRange; TenureRange; RoiRange; DownpaymentNonNegative]
    = Normal failed.
Proof.
  cbn [first_of fails bindR].
  repeat match goal with
         | |- context [if ?b then _ else _] => destruct b; [eexists; reflexivity|]
         end.
  eexists; reflexivity.
Qed.

(** The validator throws on an object only out of a format rule: every
    required field is there, and the conversion of [orderId] throws, or
    [orderId] matches and the conversion of [transactionId] throws. *)
Lemma first_failing_throws properties e :
  first_failing properties = Throw e
  <-> (forall field, In field requiredFields ->
                     fails properties (RequiredField field) = Normal false)
      /\ (ToString (lookup "orderId" properties) = Throw e
          \/ (RegExp_test config.(validation).(orderIdRegex)
                          (lookup "orderId" properties) = Normal true
              /\ ToString (lookup "transactionId" properties) = Throw e)).
Proof.
  split.
  - intros H.
    assert (Hreq : forall field, In field requiredFields ->
                     fails properties (RequiredField field) = Normal false).
    { intros field Hin. cbn [fails].
      destruct (is_undefined (lookup field properties) || is_null (lookup field properties))
        eqn:E; [|reflexivity].
      destruct (first_failing_required properties field Hin) as (m & _ & Hm);
        [cbn [fails]; now rewrite E | congruence]. }
    split; [exact Hreq|].
    rewrite (first_failing_present properties Hreq) in H.
    cbn [first_of fails] in H. unfold RegExp_test in *.
    destruct (ToString (lookup "orderId" properties)) as [so|eo]; cbn [bindR] in *;
      [|left; congruence].
    destruct (regexp_match _ so); cbn [negb] in *; [|discriminate H].
    right. split; [reflexivity|].
    destruct (ToString (lookup "transactionId" properties)) as [st|et]; cbn [bindR] in *;
      [|congruence].
    exfalso. destruct (regexp_match _ st); cbn [negb] in H; [|discriminate H].
    destruct (first_of_ranges properties) as [f Hf].
    cbn [first_of fails bindR] in Hf, H. rewrite Hf in H. discriminate H.
  - intros [Hreq H]. rewrite (first_failing_present properties Hreq).
    cbn [first_of fails].
    destruct H as [H | [Ho H]].
    + unfold RegExp_test. rewrite H. reflexivity.
    + rewrite Ho. cbn [bindR negb]. unfold RegExp_test. rewrite H. reflexivity.
Qed.

Lemma processLoanOffer_invalid_token tok d w :
  validateToken tok = false ->
  processLoanOffer {| token := tok; data := d |} w
  = (Normal (responseHelper.authError "Invalid or expired token"),
     record (Call FnValidateToken) w).
Proof.
  intros H. unfold processLoanOffer, try_catch, bindM, call. cbn [token data].
  rewrite H. reflexivity.
Qed.

Lemma processLoanOffer_rejected tok d w vr :
  validateToken tok = true ->
  validateLoanRequest d = Normal vr ->
  isValid vr = false ->
  processLoanOffer {| token := tok; data := d |} w
  = (Normal (responseHelper.errorResponse (errorCode vr) (message vr)),
     record (Call FnValidateLoanRequest) (record (Call FnValidateToken) w)).
Proof.
  intros Ht Hv Hi. unfold processLoanOffer, try_catch, bindM, call. cbn [token data].
  rewrite Ht, Hv. cbn [negb]. rewrite Hi. reflexivity.
Qed.

(** C2, as stated, fails: an [orderId] of "ORD123" and an out-of-range
    [roi] are both reported with "E002", the very code of a missing
    parameter; the configuration has no code for a bad format or a bad
    rate. *)
Lemma C2_format_and_rate_share_missing_code :
  validateLoanRequest (JObj (("orderId", JStr "ORD123") :: sample_data))
  = Normal (invalid "E002" "Order ID format is invalid")
  /\ validateLoanRequest (JObj (("roi", JNum 30) :: sample_data))
     = Normal (invalid "E002" "ROI must be between 5.5% and 24%")
  /\ validateLoanRequest (JObj (("orderId", JNull) :: sample_data))
     = Normal (invalid "E002" "Missing required parameter: orderId")
  /\ config.(errorCodes).(missingParameters) = "E002"%string.
Proof. repeat split; vm_compute; reflexivity. Qed.

(** C2, amended: every failing rule is tagged with one of three codes:
    "E003" when the first failing rule is the loan amount range, "E004"
    when it is the tenure range, and "E002" (the missing-parameter code)
    for every other rule: a missing field, a malformed [orderId] or
    [transactionId], an out-of-range [roi], a bad [downpayment].  The
    validator returns such a result whenever the rules can be evaluated up
    to the first failing one; when a format rule that is reached throws,
    the validator throws that exception and tags nothing. *)
Theorem C2_error_code_by_rule (properties : list (string * JsValue)) :
  match first_failing properties with
  | Normal failed =>
      exists r,
        validateLoanRequest (JObj properties) = Normal r
        /\ match failed with
           | None => isValid r = true /\ errorCode r = None
           | Some LoanAmountRange => isValid r = false /\ errorCode r = Some "E003"%string
           | Some TenureRange => isValid r = false /\ errorCode r = Some "E004"%string
           | Some _ => isValid r = false /\ errorCode r = Some "E002"%string
           end
  | Throw e => validateLoanRequest (JObj properties) = Throw e
  end.
Proof.
  rewrite validateLoanRequest_first_failing.
  destruct (first_failing properties) as [failed|e]; [|reflexivity].
  exists (verdict failed). split; [reflexivity|].
  destruct failed as [[]|]; split; reflexivity.
Qed.



(** C9, as stated, fails: on a field map whose [orderId] is an object with
    an own [toString] member the format check throws, and the validator
    with it. *)
Lemma C9_throws_on_unprintable_identifier :
  validateLoanRequest (JObj (("orderId", unprintable) :: sample_data))
  = Throw (TypeError "Cannot convert object to primitive value")
  /\ ~ (forall properties, exists r, validateLoanRequest (JObj properties) = Normal r).
Proof.
  assert (E : validateLoanRequest (JObj (("orderId", unprintable) :: sample_data))
              = Throw (TypeError "Cannot convert object to primitive value"))
    by (vm_compute; reflexivity).
  split; [exact E|].
  intros H. destruct (H (("orderId", unprintable) :: sample_data)) as [r Hr].
  rewrite E in Hr. discriminate Hr.
Qed.

(** C9, amended: on every field map whose [orderId] and [transactionId]
    can be converted to a string the validator returns a result, whatever
    the field values ([null], [undefined], numbers, arrays, objects); so it
    does on every argument that is neither [undefined], [null] nor an
    object.  On a field map it throws exactly when every required field is
    there and the conversion of [orderId] throws, or [orderId] matches its
    pattern and the conversion of [transactionId] throws; the exception is
    that of the conversion. *)
Theorem C9_validateLoanRequest_total_on_printable_ids :
  (forall properties,
      (exists s, ToString (lookup "orderId" properties) = Normal s) ->
      (exists s, ToString (lookup "transactionId" properties) = Normal s) ->
      exists r, validateLoanRequest (JObj properties) = Normal r)
  /\ (forall data,
        is_undefined data || is_null data = false ->
        (forall properties, data <> JObj properties) ->
        exists r, validateLoanRequest data = Normal r)
  /\ (forall properties e,
        validateLoanRequest (JObj properties) = Throw e
        <-> (forall field, In field requiredFields ->
                           fails properties (RequiredField field) = Normal false)
            /\ (ToString (lookup "orderId" properties) = Throw e
                \/ (RegExp_test config.(validation).(orderIdRegex)
                                (lookup "orderId" properties) = Normal true
                    /\ ToString (lookup "transactionId" properties) = Throw e))).
Proof.
  split; [|split].
  - intros properties [so Ho] [st Ht].
    rewrite validateLoanRequest_first_failing.
    destruct (first_failing properties) as [failed|e] eqn:F; [eexists; reflexivity|].
    apply first_failing_throws in F. destruct F as [_ [F | [_ F]]]; congruence.
  - intros data H Hobj. destruct data; try discriminate H;
      try (eexists; reflexivity).
    now destruct (Hobj properties).
  - intros properties e. rewrite <- first_failing_throws.
    rewrite validateLoanRequest_first_failing.
    destruct (first_failing properties) as [failed|e']; cbn [bindR];
      split; intros H; try discriminate H; injection H as ->; reflexivity.
Qed.

(** C9 at a field map holding [null], a number where a string is expected
    and a nested array. *)
Lemma C9_total_on_odd_values :
  exists r,
    validateLoanRequest
      (JObj [("orderId", JNum 7); ("transactionId", JArr [JNull; JObj []]);
             ("loanAmount", JStr "much"); ("roi", JNull)]) = Normal r.
Proof.
  apply (proj1 C9_validateLoanRequest_total_on_printable_ids);
    eexists; vm_compute; reflexivity.
Defined.

(** C10: a request whose token is absent, or is a string of fewer than 32
    characters, is answered with the invalid-token error "E001" whatever
    its loan data; the log holds the call to [validateToken] only, the
    loan-data validator is not invoked. *)
Theorem C10_token_checked_first (tok : option string) (d : JsValue) (w : World) :
  tok = None \/ (exists s, tok = Some s /\ String.length s < 32) ->
  processLoanOffer {| token := tok; data := d |} w
  = (Normal (responseHelper.authError "Invalid or expired token"),
     record (Call FnValidateToken) w)
  /\ responseHelper.errorCode
       (responseHelper.data (responseHelper.authError "Invalid or expired token"))
     = Some "E001"%string.
Proof.
  intros H. split; [|reflexivity].
  apply processLoanOffer_invalid_token.
  destruct H as [-> | (s & -> & Hlen)]; [reflexivity|].
  unfold validateToken. apply Nat.leb_gt in Hlen. rewrite Hlen.
  apply andb_false_r.
Qed.

(** C10 at a short token with valid loan data, and at no token with no
    loan data at all. *)
Lemma C10_short_and_absent_token :
  fst (processLoanOffer {| token := Some "short-token"%string; data := JObj sample_data |} idle)
  = Normal (responseHelper.authError "Invalid or expired token")
  /\ fst (processLoanOffer {| token := None; data := JUndefined |} idle)
     = Normal (responseHelper.authError "Invalid or expired token").
Proof.
  assert (Hshort : Some "short-token" = None
                   \/ (exists s, Some "short-token" = Some s /\ String.length s < 32)).
  { right. exists "short-token". split; [reflexivity|]. apply Nat.ltb_lt. reflexivity. }
  split.
  - rewrite (proj1 (C10_token_checked_first _ (JObj sample_data) idle Hshort)).
    reflexivity.
  - rewrite (proj1 (C10_token_checked_first None JUndefined idle (or_introl eq_refl))).
    reflexivity.
Defined.

(** C8, as stated, fails: a loan amount below the minimum does not by
    itself give the invalid-amount code; with a malformed [orderId] the
    earlier rule answers first, with "E002". *)
Lemma C8_earlier_rule_answers_first :
  validateToken (Some sample_token) = true
  /\ lookup "loanAmount"
       (("loanAmount", JNum 5000) :: ("orderId", JStr "ORD123") :: sample_data)
     = JNum 5000
  /\ PrimFloat.ltb 5000 config.(loan).(minAmount) = true
  /\ fst (processLoanOffer
            {| token := Some sample_token;
               data := JObj (("loanAmount", JNum 5000) :: ("orderId", JStr "ORD123")
                               :: sample_data) |} idle)
     = Normal (responseHelper.errorResponse (Some "E002"%string)
                 "Order ID format is invalid").
Proof. repeat split; vm_compute; reflexivity. Qed.

(** C8, amended: for an authenticated request that passes the presence and
    identifier-format checks and whose loan amount is a number below the
    configured minimum, [processLoanOffer] returns the rejection with the
    invalid-amount code "E003" and the validator's message, and the log
    holds the calls to [validateToken] and [validateLoanRequest] only; on
    any validation failure the rejection carries exactly the validator's
    [errorCode] and [message]. *)
Theorem C8_amount_below_minimum_rejected :
  (forall tok properties n w,
      validateToken tok = true ->
      (forall field, In field requiredFields ->
                     fails properties (RequiredField field) = Normal false) ->
      RegExp_test config.(validation).(orderIdRegex) (lookup "orderId" properties)
      = Normal true ->
      RegExp_test config.(validation).(transactionIdRegex)
                  (lookup "transactionId" properties) = Normal true ->
      lookup "loanAmount" properties = JNum n ->
      PrimFloat.ltb n config.(loan).(minAmount) = true ->
      processLoanOffer {| token := tok; data := JObj properties |} w
      = (Normal (responseHelper.errorResponse
                   (Some config.(errorCodes).(invalidLoanAmount))
                   "Loan amount must be between 10000 and 10000000"),
         record (Call FnValidateLoanRequest) (record (Call FnValidateToken) w)))
  /\ (forall tok d vr w,
        validateToken tok = true ->
        validateLoanRequest d = Normal vr ->
        isValid vr = false ->
        processLoanOffer {| token := tok; data := d |} w
        = (Normal (responseHelper.errorResponse (errorCode vr) (message vr)),
           record (Call FnValidateLoanRequest) (record (Call FnValidateToken) w))).
Proof.
  split.
  - intros tok properties n w Ht Hreq Ho Htx Hn Hlt.
    assert (E : first_failing properties = Normal (Some LoanAmountRange)).
    { rewrite (first_failing_present properties Hreq).
      cbn [first_of fails]. rewrite Ho, Htx. cbn [bindR negb].
      unfold out_of_range. rewrite Hn. cbn [as_number]. rewrite Hlt. reflexivity. }
    rewrite (processLoanOffer_rejected tok (JObj properties) w
               (verdict (Some LoanAmountRange))); [reflexivity | exact Ht | | reflexivity].
    rewrite validateLoanRequest_first_failing, E. reflexivity.
  - intros. now apply processLoanOffer_rejected.
Qed.

(** C8 at the sample request with a loan amount of 5000. *)
Lemma C8_rejects_5000 :
  processLoanOffer
    {| token := Some sample_token;
       data := JObj (("loanAmount", JNum 5000) :: sample_data) |} idle
  = (Normal (responseHelper.errorResponse (Some "E003"%string)
               "Loan amount must be between 10000 and 10000000"),
     record (Call FnValidateLoanRequest) (record (Call FnValidateToken) idle)).
Proof.
  apply (proj1 C8_amount_below_minimum_rejected
           (Some sample_token) (("loanAmount", JNum 5000) :: sample_data) 5000%float idle).
  - reflexivity.
  - intros field Hin. simpl in Hin.
    repeat (destruct Hin as [<- | Hin]; [reflexivity|]). destruct Hin.
  - reflexivity.
  - reflexivity.
  - reflexivity.
  - reflexivity.
Defined.
End ValidationFacts.

(** ** Calculator and schedule *)

Section CalculatorFacts.
Local Open Scope float_scope.

Example schedule_reference_loan_first_rows :
  option_map (firstn 2) (generateAmortizationSchedule Reference.pow_approx 13 100000 12 12)
  = Some [ {| month := 1; emi := 8884.88; principalPaid := 7884.88;
              interestPaid := 1000; balance := 92115.12 |};
           {| month := 2; emi := 8884.88; principalPaid := 7963.73;
              interestPaid := 921.15; balance := 84151.39 |} ].
Proof. vm_compute. reflexivity. Qed.

(** *** Special values of the IEEE operations *)

Lemma float_of_spec x s : Prim2SF x = s -> x = SF2Prim s.
Proof. intros <-. symmetry. apply SF2Prim_Prim2SF. Qed.

Lemma mul_nan_r x : x * nan = nan.
Proof.
  apply (float_of_spec _ S754_nan). rewrite mul_spec.
  change (Prim2SF nan) with S754_nan. now destruct (Prim2SF x).
Qed.

Lemma mul_nan_l x : nan * x = nan.
Proof.
  apply (float_of_spec _ S754_nan). rewrite mul_spec.
  change (Prim2SF nan) with S754_nan. reflexivity.
Qed.

Lemma div_nan_l x : nan / x = nan.
Proof.
  apply (float_of_spec _ S754_nan). rewrite div_spec.
  change (Prim2SF nan) with S754_nan. reflexivity.
Qed.

Lemma div_zero_r x : x / 0 = nan \/ x / 0 = infinity \/ x / 0 = neg_infinity.
Proof.
  assert (H : Prim2SF (x / 0) = S754_nan \/ Prim2SF (x / 0) = S754_infinity false
              \/ Prim2SF (x / 0) = S754_infinity true).
  { rewrite div_spec. change (Prim2SF 0) with (S754_zero false).
    destruct (Prim2SF x) as [s|s| |s m e]; simpl; auto; destruct s; auto. }
  destruct H as [H|[H|H]]; apply float_of_spec in H; auto.
Qed.

Lemma ltb_zero_asym x : (0 <? x) = true -> (x <? 0) = false.
Proof.
  rewrite !ltb_spec. change (Prim2SF 0) with (S754_zero false).
  destruct (Prim2SF x) as [s|s| |s m e]; simpl; try discriminate; destruct s; auto.
Qed.

Lemma Math_max_zero_nonneg x : (Math_max 0 x <? 0) = false.
Proof.
  unfold Math_max. change (is_nan 0) with false. cbn [orb].
  destruct (is_nan x); [reflexivity|].
  destruct (0 <? x) eqn:E; [now apply ltb_zero_asym|].
  destruct (x <? 0); reflexivity.
Qed.

(** The counter of the loop never becomes NaN: adding 1 to a number gives a
    number. *)

Lemma iter_pos_invariant {A} (P : A -> Prop) (f : A -> A) :
  (forall x, P x -> P (f x)) -> forall p x, P x -> P (iter_pos f p x).
Proof.
  intros Hf. induction p as [p IH|p IH|]; intros x Hx; simpl; auto.
Qed.

Lemma shr_1_nonneg mrs : (0 <= shr_m mrs)%Z -> (0 <= shr_m (shr_1 mrs))%Z.
Proof.
  destruct mrs as [m r s]. destruct m as [|[p|p|]|[p|p|]]; simpl; lia.
Qed.

Lemma shr_fexp_nonneg m e l :
  (0 <= m)%Z -> (0 <= shr_m (fst (shr_fexp prec emax m e l)))%Z.
Proof.
  intros Hm. unfold shr_fexp, shr.
  assert (H0 : (0 <= shr_m (shr_record_of_loc m l))%Z)
    by (destruct l as [|[]]; exact Hm).
  destruct (fexp prec emax (Zdigits2 m + e) - e)%Z as [|p|p]; simpl; auto.
  apply iter_pos_invariant; auto using shr_1_nonneg.
Qed.

Lemma round_nearest_even_nonneg m l :
  (0 <= m)%Z -> (0 <= round_nearest_even m l)%Z.
Proof.
  intros Hm. destruct l as [|[]]; simpl; try lia. destruct (Z.even m); lia.
Qed.

Lemma binary_round_aux_not_nan sx mx ex lx :
  (0 <= mx)%Z -> binary_round_aux prec emax sx mx ex lx <> S754_nan.
Proof.
  intros Hm. unfold binary_round_aux.
  pose proof (shr_fexp_nonneg mx ex lx Hm) as H1.
  destruct (shr_fexp prec emax mx ex lx) as [mrs' e'].
  pose proof (shr_fexp_nonneg _ e' loc_Exact
                (round_nearest_even_nonneg _ (loc_of_shr_record mrs') H1)) as H2.
  destruct (shr_fexp prec emax (round_nearest_even _ _) e' loc_Exact) as [mrs'' e''].
  simpl in H2. destruct (shr_m mrs''); try discriminate; [|lia].
  destruct (e'' <=? emax - prec)%Z; discriminate.
Qed.

Lemma binary_normalize_not_nan m e s : binary_normalize prec emax m e s <> S754_nan.
Proof.
  unfold binary_normalize, binary_round. destruct m; [discriminate| |];
    destruct (shl_align _ _ _); apply binary_round_aux_not_nan; lia.
Qed.

Lemma leb_infinity x : (x <=? infinity) = true <-> Prim2SF x <> S754_nan.
Proof.
  rewrite leb_spec. change (Prim2SF infinity) with (S754_infinity false).
  destruct (Prim2SF x) as [s|s| |s m e]; simpl; try destruct s; split; intros H;
    try reflexivity; try discriminate; exfalso; now apply H.
Qed.

Lemma succ_leb_infinity m : (m <=? infinity) = true -> (m + 1 <=? infinity) = true.
Proof.
  rewrite !leb_infinity, add_spec. intros H.
  change (Prim2SF 1) with (S754_finite false 4503599627370496 (-52)).
  destruct (Prim2SF m) as [s|s| |s mx ex]; try discriminate; try congruence.
  unfold SF64add, SFadd. apply binary_normalize_not_nan.
Qed.

(** With an infinite tenure the loop test never fails. *)
Lemma schedule_loop_diverges fuel mr e : forall m b,
  (m <=? infinity) = true -> schedule_loop fuel mr e infinity m b = None.
Proof.
  induction fuel as [|fuel IH]; intros m b H; [reflexivity|].
  cbn [schedule_loop]. rewrite H. rewrite IH; [reflexivity|].
  now apply succ_leb_infinity.
Qed.

(** *** The calculator on degenerate arguments *)

Variable pow_approx : float -> float -> float.

Lemma calculateEMI_nan_rate p t : calculateEMI pow_approx p nan t = nan.
Proof.
  unfold calculateEMI.
  change (nan / (12 * 100)) with nan.
  rewrite mul_nan_r, mul_nan_l, div_nan_l. reflexivity.
Qed.

Lemma calculateEMI_zero_term p r :
  calculateEMI pow_approx p r 0 = nan
  \/ calculateEMI pow_approx p r 0 = infinity
  \/ calculateEMI pow_approx p r 0 = neg_infinity.
Proof.
  unfold calculateEMI.
  change (Math_pow pow_approx (1 + r / (12 * 100)) 0) with 1.
  change (1 - 1) with 0.
  destruct (div_zero_r (p * (r / (12 * 100)) * 1)) as [E|[E|E]]; rewrite E; auto.
Qed.

Lemma schedule_empty fuel p r t :
  (1 <=? t) = false ->
  generateAmortizationSchedule pow_approx (S fuel) p r t = Some [].
Proof.
  intros H. unfold generateAmortizationSchedule. cbn [schedule_loop]. now rewrite H.
Qed.

(** *** The loop *)

Lemma schedule_loop_emi fuel mr e t : forall m b l,
  schedule_loop fuel mr e t m b = Some l ->
  Forall (fun entry => emi entry = round2 e) l.
Proof.
  induction fuel as [|fuel IH]; intros m b l H; [discriminate|].
  cbn [schedule_loop] in H. destruct (m <=? t).
  - destruct (schedule_loop fuel mr e t (m + 1) _) as [l'|] eqn:E; [|discriminate].
    cbn [option_map] in H. injection H as <-. constructor; [reflexivity|].
    eapply IH; eassumption.
  - injection H as <-. constructor.
Qed.

Lemma schedule_loop_balance fuel mr e t : forall m b l,
  schedule_loop fuel mr e t m b = Some l ->
  Forall (fun entry => (balance entry <? 0) = false) l.
Proof.
  induction fuel as [|fuel IH]; intros m b l H; [discriminate|].
  cbn [schedule_loop] in H. destruct (m <=? t).
  - destruct (schedule_loop fuel mr e t (m + 1) _) as [l'|] eqn:E; [|discriminate].
    cbn [option_map] in H. injection H as <-. constructor.
    + apply Math_max_zero_nonneg.
    + eapply IH; eassumption.
  - injection H as <-. constructor.
Qed.

(** Two runs of the loop that both end return the same rows. *)
Lemma schedule_loop_fuel f1 mr e t : forall f2 m b l1 l2,
  schedule_loop f1 mr e t m b = Some l1 ->
  schedule_loop f2 mr e t m b = Some l2 ->
  l1 = l2.
Proof.
  induction f1 as [|f1 IH]; intros f2 m b l1 l2 H1 H2; [discriminate|].
  destruct f2 as [|f2]; [discriminate|].
  cbn [schedule_loop] in H1, H2. destruct (m <=? t).
  - destruct (schedule_loop f1 mr e t (m + 1) _) as [l1'|] eqn:E1; [|discriminate].
    destruct (schedule_loop f2 mr e t (m + 1) _) as [l2'|] eqn:E2; [|discriminate].
    cbn [option_map] in H1, H2. injection H1 as <-. injection H2 as <-.
    f_equal. eapply IH; eassumption.
  - congruence.
Qed.

Lemma month_table : month_table_ok 84 = true.
Proof. vm_compute. reflexivity. Qed.

Lemma month_le (n k : nat) :
  (n <= 84)%nat -> (k <= n)%nat ->
  (month_after k <=? of_Z (Z.of_nat n)) = (k <? n)%nat.
Proof.
  intros Hn Hk. pose proof month_table as T. unfold month_table_ok in T.
  rewrite forallb_forall in T. specialize (T n).
  rewrite forallb_forall in T.
  apply eqb_prop. apply T; apply in_seq; lia.
Qed.

(** For a whole number of months up to the configured maximum the loop
    ends, after exactly that many rows. *)
Lemma schedule_loop_total mr e (n : nat) :
  (n <= 84)%nat ->
  forall j k b, (k + j = n)%nat ->
    exists l, schedule_loop (S j) mr e (of_Z (Z.of_nat n)) (month_after k) b = Some l
              /\ List.length l = j.
Proof.
  intros Hn. induction j as [|j IH]; intros k b Hk.
  - exists []. cbn [schedule_loop]. rewrite month_le by lia.
    replace (k <? n)%nat with false by (symmetry; apply Nat.ltb_ge; lia). now split.
  - cbn [schedule_loop]. rewrite month_le by lia.
    replace (k <? n)%nat with true by (symmetry; apply Nat.ltb_lt; lia).
    destruct (IH (S k) (b - (e - b * mr)) ltac:(lia)) as (l & Hl & Hlen).
    change (month_after k + 1) with (month_after (S k)).
    cbn [schedule_loop] in Hl. rewrite Hl. eexists. split; [reflexivity|].
    simpl. now rewrite Hlen.
Qed.

Lemma schedule_total p r (n : nat) :
  (n <= 84)%nat ->
  exists schedule,
    generateAmortizationSchedule pow_approx (S n) p r (of_Z (Z.of_nat n)) = Some schedule
    /\ List.length schedule = n.
Proof.
  intros Hn. unfold generateAmortizationSchedule.
  apply (schedule_loop_total _ _ n Hn n 0%nat p). reflexivity.
Qed.

(** *** The schedule in the heap *)

Lemma array_push_at (pre post : Store.Heap) a entry :
  Store.array_push (List.length pre) entry (pre ++ a :: post)
  = (pre ++ (a ++ [entry]) :: post)%list.
Proof. induction pre as [|x pre IH]; simpl; [reflexivity|]. now rewrite IH. Qed.

(** The loop in the heap pushes, onto the array it is given, the rows of
    [schedule_loop], and touches no other array. *)
Lemma schedule_loop_on_heap fuel mr e t (pre post : Store.Heap) : forall m b a,
  Store.schedule_loop fuel mr e t m b (List.length pre) (pre ++ a :: post)
  = option_map (fun rows => (pre ++ (a ++ rows) :: post)%list)
               (schedule_loop fuel mr e t m b).
Proof.
  induction fuel as [|fuel IH]; intros m b a; [reflexivity|].
  cbn [Store.schedule_loop schedule_loop]. destruct (m <=? t).
  - rewrite array_push_at, IH.
    destruct (schedule_loop fuel mr e t (m + 1) _) as [rows|]; [|reflexivity].
    cbn [option_map]. now rewrite <- app_assoc.
  - cbn [option_map]. now rewrite app_nil_r.
Qed.

Lemma generateAmortizationSchedule_on_heap fuel p r t (h : Store.Heap) :
  Store.generateAmortizationSchedule pow_approx fuel p r t h
  = option_map (fun rows => (List.length h, (h ++ [rows])%list))
               (generateAmortizationSchedule pow_approx fuel p r t).
Proof.
  unfold Store.generateAmortizationSchedule, generateAmortizationSchedule, Store.array_new.
  rewrite (schedule_loop_on_heap fuel _ _ t h [] 1 p []).
  destruct (schedule_loop fuel _ _ t 1 p); reflexivity.
Qed.

Lemma array_read_new (h : Store.Heap) rows :
  Store.array_read (List.length h) (h ++ [rows]) = Some rows.
Proof.
  unfold Store.array_read. rewrite nth_error_app2 by apply Nat.le_refl.
  now rewrite Nat.sub_diag.
Qed.

Lemma array_read_old (h : Store.Heap) rows q :
  q <> List.length h ->
  Store.array_read q (h ++ [rows]) = Store.array_read q h.
Proof.
  intros Hq. unfold Store.array_read.
  destruct (Nat.lt_ge_cases q (List.length h)) as [L|G].
  - now apply nth_error_app1.
  - transitivity (@None (list AmortizationEntry)); [|symmetry];
      apply nth_error_None; [rewrite length_app; simpl|]; lia.
Qed.
End CalculatorFacts.

Section CalculatorClaims.
Local Open Scope float_scope.

(** C1, as stated, fails: [calculateEMI] returns NaN for a zero rate and
    Infinity for a zero term, and [generateAmortizationSchedule] returns the
    empty schedule for a zero term and three rows of NaN for a zero rate;
    nothing is rejected. *)
Lemma C1_degenerate_inputs_not_rejected :
  calculateEMI Reference.pow_approx 100000 0 12 = nan
  /\ calculateEMI Reference.pow_approx 100000 12 0 = infinity
  /\ generateAmortizationSchedule Reference.pow_approx 1 100000 12 0 = Some []
  /\ option_map (map emi) (generateAmortizationSchedule Reference.pow_approx 4 100000 0 3)
     = Some [nan; nan; nan].
Proof. repeat split; vm_compute; reflexivity. Qed.

(** C1, amended: [calculateEMI] and [generateAmortizationSchedule] check
    nothing and raise no error.  With a NaN rate [calculateEMI] returns
    NaN; with a zero term it returns NaN or an infinity; whenever
    [1 <= term] is false (a term below 1, or NaN)
    [generateAmortizationSchedule] returns the empty schedule; and with an
    infinite term its loop never ends, so that no schedule is returned. *)
Theorem C1_calculator_checks_nothing (pow_approx : float -> float -> float) :
  (forall p t, calculateEMI pow_approx p nan t = nan)
  /\ (forall p r, calculateEMI pow_approx p r 0 = nan
                  \/ calculateEMI pow_approx p r 0 = infinity
                  \/ calculateEMI pow_approx p r 0 = neg_infinity)
  /\ (forall fuel p r t,
        (1 <=? t) = false ->
        generateAmortizationSchedule pow_approx (S fuel) p r t = Some [])
  /\ (forall fuel p r, generateAmortizationSchedule pow_approx fuel p r infinity = None).
Proof.
  repeat split.
  - apply calculateEMI_nan_rate.
  - apply calculateEMI_zero_term.
  - apply schedule_empty.
  - intros. apply schedule_loop_diverges. reflexivity.
Qed.

(** C1 at a negative term. *)
Lemma C1_negative_term_gives_empty_schedule :
  (1 <=? -5) = false
  /\ generateAmortizationSchedule Reference.pow_approx 1 100000 12 (-5) = Some [].
Proof.
  split; [reflexivity|].
  apply (proj1 (proj2 (proj2 (C1_calculator_checks_nothing Reference.pow_approx)))).
  reflexivity.
Defined.

(** C4, as stated, fails inside the configured bounds.  For 100000 at 24%
    over 84 months the last balance is 0.25 and the principal parts add up
    to 99999.76, whatever the engine's [Math.pow] returns within 64 units
    in the last place of the correctly rounded power; for the reference loan
    of 100000 at 12% over 12 months the last balance is 0 but the principal
    parts add up to 100000.03. *)
Lemma C4_drift_exceeds_one_cent :
  (out_of_range (JNum 100000) config.(loan).(minAmount) config.(loan).(maxAmount) = false
   /\ out_of_range (JNum 84) config.(loan).(minTenure) config.(loan).(maxTenure) = false
   /\ out_of_range (JNum 24) config.(loan).(minRoi) config.(loan).(maxRoi) = false)
  /\ (exists schedule,
        generateAmortizationSchedule Reference.pow_approx 85 100000 24 84 = Some schedule
        /\ List.length schedule = 84%nat
        /\ final_balance schedule = Some 0.25
        /\ sum_principalPaid schedule = 99999.76000000001
        /\ within_cent_and_settled 100000 schedule = false)
  /\ forallb (fun P =>
                match generateAmortizationSchedule (fun _ _ => P) 85 100000 24 84 with
                | Some schedule =>
                    match final_balance schedule with
                    | Some b => (b =? 0.25) && (sum_principalPaid schedule <? 99999.77)
                    | None => false
                    end
                | None => false
                end)
             (ulp_ball 64 (Reference.pow_approx 1.02 84)) = true
  /\ (exists schedule,
        generateAmortizationSchedule Reference.pow_approx 13 100000 12 12 = Some schedule
        /\ final_balance schedule = Some 0
        /\ sum_principalPaid schedule = 100000.03
        /\ within_cent_and_settled 100000 schedule = false).
Proof.
  split; [repeat split; reflexivity|]. split; [|split].
  - eexists. split; [vm_compute; reflexivity|]. repeat split; vm_compute; reflexivity.
  - vm_compute. reflexivity.
  - eexists. split; [vm_compute; reflexivity|]. repeat split; vm_compute; reflexivity.
Qed.

(** C4, amended: every balance a schedule reports, the last one included,
    is floored at zero: it is never negative.  For a whole number of months
    up to the configured maximum of 84 the schedule exists and has that many
    rows.  The last balance is 0.00 and the principal parts are within three
    cents of the principal for the reference loan of 100000 at 12% over 12
    months; neither is promised for every valid loan. *)
Theorem C4_balance_floored_at_zero :
  (forall pow_approx fuel p r t schedule,
      generateAmortizationSchedule pow_approx fuel p r t = Some schedule ->
      Forall (fun entry => (balance entry <? 0) = false) schedule)
  /\ (forall pow_approx p r (n : nat),
        (n <= 84)%nat ->
        exists schedule,
          generateAmortizationSchedule pow_approx (S n) p r (of_Z (Z.of_nat n))
          = Some schedule
          /\ List.length schedule = n)
  /\ (exists schedule,
        generateAmortizationSchedule Reference.pow_approx 13 100000 12 12 = Some schedule
        /\ final_balance schedule = Some 0
        /\ (abs (sum_principalPaid schedule - 100000) <=? 0.03) = true).
Proof.
  split; [|split].
  - intros pa fuel p r t schedule H. eapply schedule_loop_balance. exact H.
  - intros. now apply schedule_total.
  - eexists. split; [vm_compute; reflexivity|]. split; vm_compute; reflexivity.
Qed.

(** C4 at 250000 at 9.5% over 36 months. *)
Lemma C4_balances_of_a_valid_loan :
  exists schedule,
    generateAmortizationSchedule Reference.pow_approx 37 250000 9.5 36 = Some schedule
    /\ Forall (fun entry => (balance entry <? 0) = false) schedule.
Proof.
  destruct (generateAmortizationSchedule Reference.pow_approx 37 250000 9.5 36)
    as [schedule|] eqn:E; [|vm_compute in E; discriminate E].
  exists schedule. split; [reflexivity|].
  exact (proj1 C4_balance_floored_at_zero Reference.pow_approx 37%nat 250000 9.5 36
               schedule E).
Defined.

(** C5: [calculateEMI] is the reducing-balance formula with
    [monthlyRate = annualRatePercent / 1200], rounded to two decimals; and
    [calculateEMI(100000, 12, 12)] is exactly 8884.88 on every engine whose
    [Math.pow(1.01, 12)] is within 64 units in the last place of the
    correctly rounded power 1.1268250301319698. *)
Theorem C5_calculateEMI_reference_value (pow_approx : float -> float -> float) :
  In (pow_approx 1.01 12) (ulp_ball 64 1.1268250301319698) ->
  (forall p r t, calculateEMI pow_approx p r t
                 = computeEmi_spec (Math_pow pow_approx) p r t)
  /\ calculateEMI pow_approx 100000 12 12 = 8884.88.
Proof.
  intros H. split; [reflexivity|].
  unfold calculateEMI.
  change (Math_pow pow_approx (1 + 12 / (12 * 100)) 12) with (pow_approx 1.01 12).
  set (P := pow_approx 1.01 12) in *. clearbody P.
  vm_compute in H.
  repeat (destruct H as [H|H]; [rewrite <- H; vm_compute; reflexivity|]).
  destruct H.
Qed.

(** C5 on the reference engine. *)
Lemma C5_reference_engine_value :
  In (Reference.pow_approx 1.01 12) (ulp_ball 64 1.1268250301319698)
  /\ calculateEMI Reference.pow_approx 100000 12 12 = 8884.88.
Proof.
  assert (H : In (Reference.pow_approx 1.01 12) (ulp_ball 64 1.1268250301319698))
    by (left; vm_compute; reflexivity).
  split; [exact H|].
  exact (proj2 (C5_calculateEMI_reference_value Reference.pow_approx H)).
Defined.

(** C6, as stated, fails.  For a zero term [calculateEMI] returns Infinity
    and the schedule is empty: there is no first row to compare with.  For
    40000000000005 at 12% over one month [calculateEMI] returns
    40400000000005.02 and the row carries 40400000000005.03: rounding the
    rounded value again moves it. *)
Lemma C6_row_emi_differs :
  (calculateEMI Reference.pow_approx 100000 12 0 = infinity
   /\ generateAmortizationSchedule Reference.pow_approx 1 100000 12 0 = Some [])
  /\ Reference.pow_approx 1.01 1 = 1.01
  /\ calculateEMI Reference.pow_approx 40000000000005 12 1 = 40400000000005.02
  /\ option_map (map emi)
       (generateAmortizationSchedule Reference.pow_approx 2 40000000000005 12 1)
     = Some [40400000000005.03]
  /\ (40400000000005.02 =? 40400000000005.03) = false.
Proof. repeat split; vm_compute; reflexivity. Qed.

(** C6, amended: in every schedule returned, each row's [emi] is
    [calculateEMI(p, r, t)] rounded to two decimals once more; it equals
    [calculateEMI(p, r, t)] whenever that value is unchanged by the second
    rounding. *)
Theorem C6_row_emi_is_rounded_emi (pow_approx : float -> float -> float)
    (fuel : nat) (p r t : float) (schedule : list AmortizationEntry) :
  generateAmortizationSchedule pow_approx fuel p r t = Some schedule ->
  Forall (fun entry => emi entry = round2 (calculateEMI pow_approx p r t)) schedule
  /\ (round2 (calculateEMI pow_approx p r t) = calculateEMI pow_approx p r t ->
      Forall (fun entry => emi entry = calculateEMI pow_approx p r t) schedule).
Proof.
  intros H. assert (F := schedule_loop_emi _ _ _ _ _ _ _ H).
  split; [exact F|]. intros E. rewrite E in F. exact F.
Qed.

(** C6 on the reference loan: each of the 12 rows carries 8884.88. *)
Lemma C6_reference_loan_rows :
  exists schedule,
    generateAmortizationSchedule Reference.pow_approx 13 100000 12 12 = Some schedule
    /\ List.length schedule = 12%nat
    /\ Forall (fun entry => emi entry = calculateEMI Reference.pow_approx 100000 12 12)
              schedule.
Proof.
  destruct (generateAmortizationSchedule Reference.pow_approx 13 100000 12 12)
    as [schedule|] eqn:E; [|vm_compute in E; discriminate E].
  exists schedule. split; [reflexivity|]. split.
  - vm_compute in E. injection E as <-. reflexivity.
  - apply (proj2 (C6_row_emi_is_rounded_emi Reference.pow_approx 13%nat 100000 12 12
                    schedule E)).
    vm_compute. reflexivity.
Defined.

(** C7: a call of [generateAmortizationSchedule] reads nothing of the heap
    it runs in.  Any two calls with the same (principal, rate, term) that
    return, in whatever heaps (the second heap may hold the first result,
    changed or not), return arrays with the same entries in the same order;
    the array returned is a new one, and every array that was there is left
    as it was.  For a whole number of months up to the configured maximum a
    call does return, in every heap. *)
Theorem C7_schedule_independent_of_heap (pow_approx : float -> float -> float)
    (p r t : float) :
  (forall fuel1 fuel2 h1 h2 ref1 ref2 h1' h2',
      Store.generateAmortizationSchedule pow_approx fuel1 p r t h1 = Some (ref1, h1') ->
      Store.generateAmortizationSchedule pow_approx fuel2 p r t h2 = Some (ref2, h2') ->
      (exists rows,
          Store.array_read ref1 h1' = Some rows /\ Store.array_read ref2 h2' = Some rows)
      /\ Store.array_read ref1 h1 = None
      /\ (forall q, q <> ref1 -> Store.array_read q h1' = Store.array_read q h1))
  /\ (forall n : nat,
        (n <= 84)%nat -> t = of_Z (Z.of_nat n) ->
        forall h, exists ref h' rows,
          Store.generateAmortizationSchedule pow_approx (S n) p r t h = Some (ref, h')
          /\ Store.array_read ref h' = Some rows
          /\ List.length rows = n).
Proof.
  split.
  - intros f1 f2 h1 h2 ref1 ref2 h1' h2' H1 H2.
    rewrite generateAmortizationSchedule_on_heap in H1, H2.
    destruct (generateAmortizationSchedule pow_approx f1 p r t) as [rows1|] eqn:E1;
      [|discriminate H1].
    destruct (generateAmortizationSchedule pow_approx f2 p r t) as [rows2|] eqn:E2;
      [|discriminate H2].
    cbn [option_map] in H1, H2. injection H1 as <- <-. injection H2 as <- <-.
    assert (rows1 = rows2) as <- by (eapply schedule_loop_fuel; eassumption).
    split; [|split].
    + exists rows1. split; apply array_read_new.
    + apply nth_error_None. apply Nat.le_refl.
    + intros q Hq. now apply array_read_old.
  - intros n Hn -> h. rewrite generateAmortizationSchedule_on_heap.
    destruct (schedule_total pow_approx p r n Hn) as (rows & E & Hlen).
    rewrite E. cbn [option_map]. eexists; eexists; exists rows.
    split; [reflexivity|]. split; [apply array_read_new|exact Hlen].
Qed.

(** C7 on the reference loan: a first call in an empty heap, then an entry
    pushed onto its result by the caller, then a second call, with more
    fuel, in that heap: it returns a new array with the twelve rows the
    first call returned, and the first array keeps its thirteen. *)
Lemma C7_reference_loan_twice :
  exists h1 h2 rows,
    Store.generateAmortizationSchedule Reference.pow_approx 13 100000 12 12 [] = Some (0%nat, h1)
    /\ Store.generateAmortizationSchedule Reference.pow_approx 40 100000 12 12
         (Store.array_push 0%nat
            {| month := 0; emi := 0; principalPaid := 0; interestPaid := 0; balance := 0 |}
            h1)
       = Some (1%nat, h2)
    /\ Store.array_read 0%nat h1 = Some rows
    /\ Store.array_read 1%nat h2 = Some rows
    /\ List.length rows = 12%nat
    /\ option_map (@List.length _) (Store.array_read 0%nat h2) = Some 13%nat.
Proof.
  destruct (Store.generateAmortizationSchedule Reference.pow_approx 13 100000 12 12 [])
    as [[ref1 h1]|] eqn:E1; [|vm_compute in E1; discriminate E1].
  assert (ref1 = 0%nat) as -> by (vm_compute in E1; now injection E1).
  set (junk := {| month := 0; emi := 0; principalPaid := 0; interestPaid := 0;
                  balance := 0 |}).
  destruct (Store.generateAmortizationSchedule Reference.pow_approx 40 100000 12 12
              (Store.array_push 0%nat junk h1))
    as [[ref2 h2]|] eqn:E2; [|vm_compute in E1; injection E1 as <-;
                               vm_compute in E2; discriminate E2].
  assert (ref2 = 1%nat) as ->
    by (vm_compute in E1; injection E1 as <-; vm_compute in E2; now injection E2).
  destruct (proj1 (C7_schedule_independent_of_heap Reference.pow_approx 100000 12 12)
              13%nat 40%nat [] (Store.array_push 0%nat junk h1) 0%nat 1%nat h1 h2 E1 E2)
    as ((rows & R1 & R2) & _ & _).
  exists h1, h2, rows. split; [reflexivity|]. split; [exact E2|].
  split; [exact R1|]. split; [exact R2|].
  vm_compute in E1. injection E1 as <-. vm_compute in E2. injection E2 as <-.
  vm_compute in R1. injection R1 as <-. split; reflexivity.
Defined.
End CalculatorClaims.

(** ** More on the validator *)

Section ValidatorProperties.
Local Open Scope string_scope.

(** *** The identifier patterns *)

Lemma match_rep_digit_end hi : forall lo s,
  match_rep Digit lo hi (fun rest => String.eqb rest "") s
  = digits_only s && (lo <=? String.length s)%nat && (String.length s <=? hi)%nat.
Proof.
  induction hi as [|hi IH]; intros lo s.
  - cbn [match_rep]. destruct s as [|c s].
    + destruct lo; reflexivity.
    + cbn [String.eqb String.length Nat.leb]. rewrite !andb_false_r. reflexivity.
  - cbn [match_rep]. destruct s as [|c s].
    + destruct lo; reflexivity.
    + rewrite IH. unfold digits_only.
      cbn [String.eqb list_ascii_of_string forallb String.length].
      change (atom_matches Digit c) with (is_digit c).
      rewrite andb_false_r. cbn [orb].
      change (S (String.length s) <=? S hi)%nat with (String.length s <=? hi)%nat.
      destruct lo as [|lo].
      * cbn [Nat.pred Nat.leb]. rewrite !andb_true_r, <- !andb_assoc. reflexivity.
      * cbn [Nat.pred].
        change (S lo <=? S (String.length s))%nat with (lo <=? String.length s)%nat.
        rewrite <- !andb_assoc. reflexivity.
Qed.

Lemma match_rep_lit c k s :
  match_rep (Lit c) 1 1 k s
  = match s with
    | String c' s' => Ascii.eqb c c' && k s'
    | EmptyString => false
    end.
Proof. cbn [match_rep]. destruct s; reflexivity. Qed.

Lemma prefixed_id_match (a b c : ascii) (lo hi : nat) (s : string) :
  regexp_match (literal (String a (String b (String c "")))
                  ++ [{| atom := Digit; at_least := lo; at_most := hi |}])%list s = true
  <-> exists d, s = String a (String b (String c d))
                /\ digits_only d = true /\ (lo <= String.length d <= hi)%nat.
Proof.
  unfold regexp_match.
  cbn [literal list_ascii_of_string map app fold_right atom at_least at_most].
  split.
  - rewrite match_rep_lit.
    destruct s as [|a' s]; [discriminate|]. rewrite match_rep_lit.
    destruct s as [|b' s]; [rewrite andb_false_r; discriminate|]. rewrite match_rep_lit.
    destruct s as [|c' d]; [rewrite !andb_false_r; discriminate|].
    rewrite match_rep_digit_end.
    rewrite !andb_true_iff, !Nat.leb_le. intros (Ha & Hb & Hc & (Hd & Hlo) & Hhi).
    apply Ascii.eqb_eq in Ha, Hb, Hc. subst. exists d. auto.
  - intros (d & -> & Hd & Hlo & Hhi).
    rewrite !match_rep_lit, match_rep_digit_end, !Ascii.eqb_refl, Hd. simpl.
    apply andb_true_iff. split; apply Nat.leb_le; assumption.
Qed.

(** X1: a string matches the order pattern exactly when it is "ORD"
    followed by 6 to 10 decimal digits and nothing else, and the transaction
    pattern exactly when it is "TXN" followed by 4 to 12 digits. *)
Theorem id_patterns_characterised (s : string) :
  (regexp_match config.(validation).(orderIdRegex) s = true
   <-> exists d, s = "ORD" ++ d /\ digits_only d = true
                 /\ (6 <= String.length d <= 10)%nat)
  /\ (regexp_match config.(validation).(transactionIdRegex) s = true
      <-> exists d, s = "TXN" ++ d /\ digits_only d = true
                    /\ (4 <= String.length d <= 12)%nat).
Proof. split; apply prefixed_id_match. Qed.

(** *** What [Number::toString] starts with *)

Lemma string_of_uint_head d :
  exists c r, NilZero.string_of_uint d = String c r /\ is_digit c = true.
Proof. destruct d; simpl; eexists; eexists; split; reflexivity. Qed.

Lemma positive_toString_head m e :
  exists c r, positive_toString m e = String c r /\ is_digit c = true.
Proof.
  unfold positive_toString.
  destruct (shortest m e 17 1) as [k0 s0].
  destruct (if (s0 =? 10 ^ k0)%Z then (1%Z, 1%Z, (n0 m e + 1)%Z) else (k0, s0, n0 m e))
    as [[k s] n].
  destruct (string_of_uint_head (N.to_uint (Z.to_N s))) as (c & r & E & Hc).
  unfold decimal_digits at 1 2 3 4 5 6 7. rewrite E.
  destruct ((k <=? n)%Z && (n <=? 21)%Z).
  { eexists; eexists; split; [reflexivity|exact Hc]. }
  destruct ((0 <? n)%Z && (n <=? 21)%Z) eqn:P.
  { apply andb_true_iff in P. destruct P as [P _]. apply Z.ltb_lt in P.
    destruct (Z.to_nat n) as [|j] eqn:J; [lia|].
    eexists; eexists; split; [reflexivity|exact Hc]. }
  destruct ((-6 <? n)%Z && (n <=? 0)%Z).
  { eexists; eexists; split; reflexivity. }
  destruct (k =? 1)%Z; eexists; eexists; (split; [reflexivity|exact Hc]).
Qed.

Lemma digit_not_id_start c : is_digit c = true -> may_start_id c = false.
Proof.
  intros H. unfold may_start_id.
  destruct (Ascii.eqb_spec "O" c) as [<-|_]; [discriminate H|].
  destruct (Ascii.eqb_spec "T" c) as [<-|_]; [discriminate H|]. reflexivity.
Qed.

Lemma Number_toString_head n :
  exists c r, Number_toString n = String c r /\ may_start_id c = false.
Proof.
  unfold Number_toString. destruct (Prim2SF n) as [s|s| |s m e].
  - eexists; eexists; split; reflexivity.
  - destruct s; eexists; eexists; split; reflexivity.
  - eexists; eexists; split; reflexivity.
  - destruct (positive_toString_head m e) as (c & r & -> & Hc). destruct s.
    + eexists; eexists; split; reflexivity.
    + eexists; eexists; split; [reflexivity|]. now apply digit_not_id_start.
Qed.

Lemma id_patterns_need_start c r :
  may_start_id c = false ->
  regexp_match config.(validation).(orderIdRegex) (String c r) = false
  /\ regexp_match config.(validation).(transactionIdRegex) (String c r) = false.
Proof.
  unfold may_start_id. intros H. apply orb_false_iff in H. destruct H as [HO HT].
  unfold regexp_match.
  cbn [validation config orderIdRegex transactionIdRegex literal list_ascii_of_string
       map app fold_right atom at_least at_most].
  rewrite !match_rep_lit, HO, HT. split; reflexivity.
Qed.

(** X2: the format checks are passed by strings and by arrays only: a
    number, a boolean, a plain object, [null] or [undefined] given as
    [orderId] or [transactionId] never matches the pattern. *)
Theorem format_check_passes_only_strings_and_arrays (v : JsValue) :
  RegExp_test config.(validation).(orderIdRegex) v = Normal true
  \/ RegExp_test config.(validation).(transactionIdRegex) v = Normal true ->
  (exists s, v = JStr s) \/ (exists elements, v = JArr elements).
Proof.
  intros H. destruct v as [| |b|n|s|l|ps]; eauto.
  - destruct H as [H|H]; discriminate H.
  - destruct H as [H|H]; discriminate H.
  - destruct b; destruct H as [H|H]; discriminate H.
  - unfold RegExp_test in H. cbn [ToString bindR] in H.
    destruct (Number_toString_head n) as (c & r & E & Hc). rewrite E in H.
    destruct (id_patterns_need_start c r Hc) as [H1 H2]. rewrite H1, H2 in H.
    destruct H; discriminate.
  - unfold RegExp_test in H. cbn [ToString] in H.
    destruct (has_own "toString" ps); destruct H as [H|H]; discriminate H.
Qed.

Lemma format_check_example :
  (exists s, JArr [JStr "TXN0042"] = JStr s)
  \/ (exists elements, JArr [JStr "TXN0042"] = JArr elements).
Proof.
  apply (format_check_passes_only_strings_and_arrays (JArr [JStr "TXN0042"])).
  right. reflexivity.
Defined.

Lemma bindR_Normal {A} (r : JsResult A) : (x <- r ;; Normal x) = r.
Proof. destruct r; reflexivity. Qed.

(** An array of one element that is neither [undefined] nor [null]
    converts as the element does, exception included. *)
Lemma ToString_singleton v :
  is_undefined v || is_null v = false -> ToString (JArr [v]) = ToString v.
Proof.
  intros Hv.
  destruct v; try discriminate Hv;
    match goal with
    | |- ToString (JArr [?x]) = _ =>
        change (ToString (JArr [x])) with (s <- ToString x ;; Normal s)
    end; apply bindR_Normal.
Qed.

(** *** What the verdict depends on *)

Lemma first_failing_ext ps ps' :
  (forall r, In r checks -> fails ps r = fails ps' r) ->
  first_failing ps = first_failing ps'.
Proof.
  unfold first_failing. induction checks as [|r rs IH]; intros H; [reflexivity|].
  cbn [first_of]. rewrite <- (H r (or_introl eq_refl)).
  destruct (fails ps r) as [[|]|e]; cbn [bindR]; try reflexivity.
  apply IH. intros r' Hr'. apply H. now right.
Qed.

Lemma validate_ext ps ps' :
  (forall r, In r checks -> fails ps r = fails ps' r) ->
  validateLoanRequest (JObj ps) = validateLoanRequest (JObj ps').
Proof.
  intros H. rewrite !validateLoanRequest_first_failing.
  now rewrite (first_failing_ext ps ps' H).
Qed.

Ltac each_check H :=
  unfold checks in H; cbn [requiredFields map app In] in H;
  repeat (destruct H as [<- | H]); [.. | destruct H].

(** X3: the verdict depends on the eight required fields only: two objects
    that agree on them (whatever else they hold, in whatever order) get the
    same result. *)
Theorem validator_reads_required_fields_only (ps ps' : list (string * JsValue)) :
  (forall field, In field requiredFields -> lookup field ps = lookup field ps') ->
  validateLoanRequest (JObj ps) = validateLoanRequest (JObj ps').
Proof.
  intros H. apply validate_ext. intros r Hr.
  assert (Ho := H "orderId" ltac:(simpl; tauto)).
  assert (Ht := H "transactionId" ltac:(simpl; tauto)).
  assert (Hl := H "loanAmount" ltac:(simpl; tauto)).
  assert (Hr' := H "roi" ltac:(simpl; tauto)).
  assert (Hn := H "tenure" ltac:(simpl; tauto)).
  assert (Hd := H "downpayment" ltac:(simpl; tauto)).
  assert (Hp := H "processingFee" ltac:(simpl; tauto)).
  assert (Hv := H "tvsTransactionId" ltac:(simpl; tauto)).
  each_check Hr; cbn [fails];
    rewrite ?Ho, ?Ht, ?Hl, ?Hr', ?Hn, ?Hd, ?Hp, ?Hv; reflexivity.
Qed.

Lemma validator_ignores_other_fields_example :
  validateLoanRequest (JObj (("backRedirectionURL", JStr "https://shop.example/back")
                               :: ("note", JNum 1) :: sample_data))
  = validateLoanRequest (JObj (rev sample_data)).
Proof.
  apply validator_reads_required_fields_only.
  intros field Hin. simpl in Hin.
  repeat (destruct Hin as [<- | Hin]; [reflexivity|]). destruct Hin.
Defined.

(** X4: [processingFee] and [tvsTransactionId] are checked for presence
    only: replacing one value that is neither [undefined] nor [null] by any
    other such value, of any type, leaves the result unchanged. *)
Theorem fee_and_tvs_id_checked_for_presence_only
    (ps : list (string * JsValue)) (v v' : JsValue) :
  is_undefined v || is_null v = false ->
  is_undefined v' || is_null v' = false ->
  validateLoanRequest (JObj (("processingFee", v) :: ps))
  = validateLoanRequest (JObj (("processingFee", v') :: ps))
  /\ validateLoanRequest (JObj (("tvsTransactionId", v) :: ps))
     = validateLoanRequest (JObj (("tvsTransactionId", v') :: ps)).
Proof.
  intros Hv Hv'. split; apply validate_ext; intros r Hr;
    each_check Hr; cbn -[RegExp_test out_of_range is_undefined is_null];
    rewrite ?Hv, ?Hv'; reflexivity.
Qed.

Lemma fee_presence_only_example :
  validateLoanRequest (JObj (("processingFee", JNum (-500)) :: sample_data))
  = validateLoanRequest (JObj (("processingFee", JStr "free") :: sample_data))
  /\ validateLoanRequest (JObj (("tvsTransactionId", JNum (-500)) :: sample_data))
     = validateLoanRequest (JObj (("tvsTransactionId", JStr "free") :: sample_data)).
Proof.
  apply (fee_and_tvs_id_checked_for_presence_only
           sample_data (JNum (-500)) (JStr "free")); reflexivity.
Defined.

(** X5: the validator does not require an identifier to be a string:
    wrapping the value of [orderId] or [transactionId] in a one-element
    array leaves the result unchanged, since [test] converts its argument to
    a string. *)
Theorem single_element_array_passes_as_id (ps : list (string * JsValue)) (v : JsValue) :
  is_undefined v || is_null v = false ->
  validateLoanRequest (JObj (("orderId", JArr [v]) :: ps))
  = validateLoanRequest (JObj (("orderId", v) :: ps))
  /\ validateLoanRequest (JObj (("transactionId", JArr [v]) :: ps))
     = validateLoanRequest (JObj (("transactionId", v) :: ps)).
Proof.
  intros Hv.
  assert (E : forall re, RegExp_test re (JArr [v]) = RegExp_test re v)
    by (intros re; unfold RegExp_test; now rewrite ToString_singleton).
  split; apply validate_ext; intros r Hr;
    each_check Hr; cbn -[RegExp_test out_of_range is_undefined is_null];
    rewrite ?E; try reflexivity; rewrite Hv; reflexivity.
Qed.

Lemma array_id_example :
  validateLoanRequest (JObj (("orderId", JArr [JStr "ORD123456"]) :: sample_data))
  = Normal {| isValid := true; errorCode := None; message := "" |}.
Proof.
  rewrite (proj1 (single_element_array_passes_as_id
                    sample_data (JStr "ORD123456") eq_refl)).
  reflexivity.
Defined.
End ValidatorProperties.

(** *** The range rules *)

Section RangeRule.
Local Open Scope float_scope.

Lemma SFcompare_antisym x y :
  SFcompare y x = option_map CompOpp (SFcompare x y).
Proof.
  destruct x as [sx|sx| |sx mx ex], y as [sy|sy| |sy my ey]; simpl;
    try reflexivity; try (destruct sx; reflexivity); try (destruct sy; reflexivity);
    try (destruct sx, sy; reflexivity).
  assert (A : Pos.compare_cont Eq my mx = CompOpp (Pos.compare_cont Eq mx my))
    by (symmetry; apply (Pos.compare_cont_antisym mx my Eq)).
  destruct sx, sy; try reflexivity; f_equal;
    rewrite (Z.compare_antisym ex ey), A; destruct (ex ?= ey)%Z; simpl; try reflexivity;
    destruct (Pos.compare_cont Eq mx my); reflexivity.
Qed.

Lemma SFcompare_refl x : x <> S754_nan -> SFcompare x x = Some Eq.
Proof.
  destruct x as [s|s| |s m e]; simpl; intros H; try congruence.
  - destruct s; reflexivity.
  - rewrite Z.compare_refl, Pos.compare_cont_refl. destruct s; reflexivity.
Qed.

Lemma is_nan_spec x : is_nan x = false <-> Prim2SF x <> S754_nan.
Proof.
  unfold is_nan. rewrite FloatAxioms.eqb_spec. unfold SFeqb. split.
  - intros H E. rewrite E in H. discriminate H.
  - intros H. now rewrite SFcompare_refl.
Qed.

Lemma SFcompare_none x y :
  SFcompare x y = None -> x = S754_nan \/ y = S754_nan.
Proof.
  destruct x as [sx|sx| |sx mx ex], y as [sy|sy| |sy my ey]; simpl; auto; discriminate.
Qed.

(** On numbers, [x < y] is the negation of [y <= x]. *)
Lemma ltb_negb_leb x y :
  is_nan x = false -> is_nan y = false -> (x <? y) = negb (y <=? x).
Proof.
  rewrite !is_nan_spec, ltb_spec, leb_spec. intros Hx Hy.
  unfold SFltb, SFleb. rewrite (SFcompare_antisym (Prim2SF x) (Prim2SF y)).
  destruct (SFcompare (Prim2SF x) (Prim2SF y)) as [[]|] eqn:E; try reflexivity.
  apply SFcompare_none in E. tauto.
Qed.

Lemma ltb_nan_l y : (nan <? y) = false.
Proof. rewrite ltb_spec. reflexivity. Qed.

Lemma ltb_nan_r x : (x <? nan) = false.
Proof. rewrite ltb_spec. change (Prim2SF nan) with S754_nan. now destruct (Prim2SF x). Qed.

Lemma is_nan_true x : is_nan x = true -> x = nan.
Proof.
  intros H. destruct (Prim2SF x) eqn:E;
    try (assert (F : is_nan x = false) by (apply is_nan_spec; congruence); congruence).
  rewrite <- (SF2Prim_Prim2SF x), E. reflexivity.
Qed.

(** X6: a range rule ([loanAmount], [tenure], [roi]) lets a value through
    exactly when it is a number that lies within the two bounds, both
    included, or is NaN: NaN is of type number and compares false with
    everything.  Values of any other type are rejected. *)
Theorem range_rule_accepts_bounds_or_nan (v : JsValue) (lo hi : float) :
  is_nan lo = false -> is_nan hi = false ->
  (out_of_range v lo hi = false
   <-> exists n, v = JNum n
                 /\ (is_nan n = true \/ ((lo <=? n) = true /\ (n <=? hi) = true))).
Proof.
  intros Hlo Hhi. unfold out_of_range. split.
  - destruct v as [| | |n| | |]; try discriminate. cbn [as_number].
    intros H. apply orb_false_iff in H. destruct H as [H1 H2].
    exists n. split; [reflexivity|].
    destruct (is_nan n) eqn:N; [now left|right].
    rewrite ltb_negb_leb in H1, H2 by assumption.
    apply negb_false_iff in H1, H2. now split.
  - intros (n & -> & [N | [H1 H2]]); cbn [as_number].
    + apply is_nan_true in N. subst n. now rewrite ltb_nan_l, ltb_nan_r.
    + assert (N : is_nan n = false).
      { apply is_nan_spec. intros E. rewrite leb_spec, E in H2. discriminate H2. }
      rewrite !ltb_negb_leb by assumption. now rewrite H1, H2.
Qed.

(** X6 at the configured tenure bounds: 84 is accepted, and so is NaN. *)
Lemma range_rule_example :
  out_of_range (JNum 84) config.(loan).(minTenure) config.(loan).(maxTenure) = false
  /\ out_of_range (JNum nan) config.(loan).(minTenure) config.(loan).(maxTenure) = false.
Proof.
  split.
  - apply (proj2 (range_rule_accepts_bounds_or_nan (JNum 84) 3 84 eq_refl eq_refl)).
    exists 84. split; [reflexivity|]. right. split; reflexivity.
  - apply (proj2 (range_rule_accepts_bounds_or_nan (JNum nan) 3 84 eq_refl eq_refl)).
    exists nan. split; [reflexivity|]. left. reflexivity.
Defined.
End RangeRule.

(** ** More on [processLoanOffer] *)

Section ServiceProperties.
Local Open Scope string_scope.

Lemma validateLoanRequest_not_object d :
  match d with JObj _ => False | _ => True end ->
  match validateLoanRequest d with
  | Normal vr => isValid vr = false
  | Throw _ => True
  end.
Proof. destruct d; intros H; try exact I; try reflexivity. destruct H. Qed.

(** The two ways the validator throws: its argument is [undefined] or
    [null], or it is an object and a format rule throws. *)
Lemma validateLoanRequest_throw_cases d e :
  validateLoanRequest d = Throw e ->
  is_undefined d || is_null d = true
  \/ exists ps, d = JObj ps /\ first_failing ps = Throw e.
Proof.
  intros H. destruct d as [| | | | | |ps]; try discriminate H; auto.
  right. exists ps. split; [reflexivity|].
  rewrite validateLoanRequest_first_failing in H.
  destruct (first_failing ps); [discriminate H|].
  cbn [bindR] in H. injection H as ->. reflexivity.
Qed.

Lemma validateLoanRequest_throws d :
  is_undefined d || is_null d = true ->
  exists name,
    ToString d = Normal name
    /\ validateLoanRequest d
       = Throw (TypeError ("Cannot read properties of " ++ name
                             ++ " (reading 'orderId')")).
Proof. destruct d; try discriminate; eexists; split; reflexivity. Qed.

Lemma truthy_not_nullish d : ToBoolean d = true -> is_undefined d || is_null d = false.
Proof. destruct d; try discriminate; reflexivity. Qed.

(** Only an object can be valid. *)
Lemma valid_data_is_object d vr :
  validateLoanRequest d = Normal vr -> isValid vr = true ->
  exists ps, d = JObj ps /\ first_failing ps = Normal None.
Proof.
  intros Hv Hi. destruct d as [| | | | | |ps];
    try (match type of Hv with
         | validateLoanRequest ?x = _ =>
             pose proof (validateLoanRequest_not_object x I) as N
         end; rewrite Hv in N; congruence).
  exists ps. split; [reflexivity|].
  rewrite validateLoanRequest_first_failing in Hv.
  destruct (first_failing ps) as [[r|]|e]; [|reflexivity|discriminate Hv].
  injection Hv as <-. discriminate Hi.
Qed.

Lemma processLoanOffer_accepted tok ps w :
  validateToken tok = true ->
  first_failing ps = Normal None ->
  processLoanOffer {| token := tok; data := JObj ps |} w
  = (Normal (responseHelper.successResponse
               {| responseHelper.errorMessage := "";
                  responseHelper.errorCode := Some "";
                  responseHelper.redirectionURL :=
                    if ToBoolean (lookup "backRedirectionURL" ps)
                    then lookup "backRedirectionURL" ps else JStr "" |}),
     record (Call FnValidateLoanRequest) (record (Call FnValidateToken) w)).
Proof.
  intros Ht Hf. unfold processLoanOffer, try_catch, bindM, call, liftM, retM.
  cbn [token data]. rewrite Ht, validateLoanRequest_first_failing, Hf. reflexivity.
Qed.

Lemma processLoanOffer_caught tok d w e :
  validateToken tok = true ->
  validateLoanRequest d = Throw e ->
  processLoanOffer {| token := tok; data := d |} w
  = (Normal (responseHelper.errorResponse (Some "E999")
               match NODE_ENV w with
               | Some "production" => "Internal server error"
               | _ => if String.eqb (error_message e) "" then "Unknown server error"
                      else error_message e
               end),
     record (ConsoleError "Error processing loan offer:" e)
       (record (Call FnValidateLoanRequest) (record (Call FnValidateToken) w))).
Proof.
  intros Ht Hv. unfold processLoanOffer, try_catch, bindM, call, console_error.
  cbn [token data]. rewrite Ht, Hv. reflexivity.
Qed.

(** The four ways [processLoanOffer] can end: the token is refused, the
    validator rejects, accepts, or throws; only the last one logs an
    error, and answers with the server error. *)
Lemma processLoanOffer_cases (req : LoanOfferRequest) (w : World) :
  exists resp logged,
    processLoanOffer req w
    = (Normal resp, {| NODE_ENV := NODE_ENV w; events := events w ++ logged |})
    /\ responseHelper.statusCode resp = (if accepted req then "SR" else "ER")
    /\ (forall label e,
          In (ConsoleError label e) logged
          <-> label = "Error processing loan offer:"
              /\ validateToken (token req) = true
              /\ validateLoanRequest (data req) = Throw e)
    /\ (forall e,
          validateToken (token req) = true ->
          validateLoanRequest (data req) = Throw e ->
          responseHelper.errorCode (responseHelper.data resp) = Some "E999")
    /\ (validateToken (token req) = true ->
        responseHelper.errorCode (responseHelper.data resp) <> Some "E001").
Proof.
  destruct req as [tok d]. unfold accepted. cbn [token data].
  destruct (validateToken tok) eqn:Ht.
  - destruct (validateLoanRequest d) as [vr|e] eqn:Hv.
    + assert (L : forall label e,
                In (ConsoleError label e) [Call FnValidateToken; Call FnValidateLoanRequest]
                <-> label = "Error processing loan offer:" /\ true = true
                    /\ Normal vr = Throw e).
      { intros label e. split.
        - intros [H|[H|[]]]; discriminate H.
        - intros (_ & _ & H). discriminate H. }
      destruct (isValid vr) eqn:Hi.
      * destruct (valid_data_is_object d vr Hv Hi) as (ps & -> & F).
        rewrite (processLoanOffer_accepted tok ps w Ht F).
        eexists. exists [Call FnValidateToken; Call FnValidateLoanRequest].
        unfold record. cbn [NODE_ENV events]. rewrite <- app_assoc.
        split; [reflexivity|]. split; [reflexivity|]. split; [exact L|].
        split; [intros e _ H; discriminate H|]. intros _. discriminate.
      * rewrite (processLoanOffer_rejected tok d w vr Ht Hv Hi).
        eexists. exists [Call FnValidateToken; Call FnValidateLoanRequest].
        unfold record. cbn [NODE_ENV events]. rewrite <- app_assoc.
        split; [reflexivity|]. split; [reflexivity|]. split; [exact L|].
        split; [intros e _ H; discriminate H|]. intros _. cbn.
        destruct d as [| | | | | |ps];
          try (injection Hv as <-; discriminate); try discriminate Hv.
        rewrite validateLoanRequest_first_failing in Hv.
        destruct (first_failing ps) as [[[]|]|]; try discriminate Hv;
          injection Hv as <-; discriminate.
    + rewrite (processLoanOffer_caught tok d w e Ht Hv).
      eexists. exists [Call FnValidateToken; Call FnValidateLoanRequest;
                       ConsoleError "Error processing loan offer:" e].
      unfold record. cbn [NODE_ENV events]. rewrite <- !app_assoc.
      split; [reflexivity|]. split; [reflexivity|]. split; [|split].
      * intros label e0. split.
        -- intros [H|[H|[H|[]]]]; try discriminate H. injection H as <- <-. auto.
        -- intros (-> & _ & H). injection H as <-. simpl. auto.
      * intros e0 _ _. reflexivity.
      * intros _. discriminate.
  - rewrite (processLoanOffer_invalid_token tok d w Ht).
    eexists. exists [Call FnValidateToken].
    split; [reflexivity|]. split; [reflexivity|]. split; [|split].
    + intros label e. split.
      * intros [H|[]]. discriminate H.
      * intros (_ & H & _). discriminate H.
    + intros e H. discriminate H.
    + intros H. discriminate H.
Qed.

(** X7: [processLoanOffer] never throws: for every request it returns a
    response, leaves [NODE_ENV] untouched and only appends to the log; the
    response has status code "SR" exactly when the token is valid and the
    validator accepts the loan data, and "ER" otherwise. *)
Theorem processLoanOffer_always_answers (req : LoanOfferRequest) (w : World) :
  exists resp w',
    processLoanOffer req w = (Normal resp, w')
    /\ NODE_ENV w' = NODE_ENV w
    /\ (exists logged, events w' = events w ++ logged)%list
    /\ responseHelper.statusCode resp = (if accepted req then "SR" else "ER").
Proof.
  destruct (processLoanOffer_cases req w) as (resp & logged & P & Hsr & _).
  exists resp. eexists. split; [exact P|]. split; [reflexivity|].
  split; [exists logged; reflexivity|exact Hsr].
Qed.

(** X8: an accepted request is answered with the success envelope, empty
    error fields, and as [redirectionURL] the request's [backRedirectionURL]
    when that is truthy (of whatever type) and the empty string otherwise. *)
Theorem accepted_request_redirection (tok : option string)
    (ps : list (string * JsValue)) (w : World) :
  validateToken tok = true ->
  validateLoanRequest (JObj ps)
  = Normal {| isValid := true; errorCode := None; message := "" |} ->
  fst (processLoanOffer {| token := tok; data := JObj ps |} w)
  = Normal (responseHelper.successResponse
              {| responseHelper.errorMessage := "";
                 responseHelper.errorCode := Some "";
                 responseHelper.redirectionURL :=
                   if ToBoolean (lookup "backRedirectionURL" ps)
                   then lookup "backRedirectionURL" ps else JStr "" |}).
Proof.
  intros Ht Hv.
  destruct (valid_data_is_object _ _ Hv eq_refl) as (ps' & E & F).
  injection E as E. subst ps'. now rewrite (processLoanOffer_accepted tok ps w Ht F).
Qed.

Lemma accepted_request_redirection_example :
  fst (processLoanOffer
         {| token := Some sample_token;
            data := JObj (("backRedirectionURL", JStr "https://shop.example/back")
                            :: sample_data) |} idle)
  = Normal (responseHelper.successResponse
              {| responseHelper.errorMessage := "";
                 responseHelper.errorCode := Some "";
                 responseHelper.redirectionURL := JStr "https://shop.example/back" |}).
Proof.
  apply (accepted_request_redirection (Some sample_token)
           (("backRedirectionURL", JStr "https://shop.example/back") :: sample_data) idle).
  - reflexivity.
  - vm_compute. reflexivity.
Defined.

(** X9: with a valid token and loan data that is [undefined] or [null] the
    validator's exception is caught: the response carries the server-error
    code "E999", the exception is logged once, and the message is the
    exception's text except in production, where it is always "Internal
    server error". *)
Theorem missing_data_is_a_server_error (tok : option string) (d : JsValue) (w : World) :
  validateToken tok = true ->
  is_undefined d || is_null d = true ->
  exists e name,
    ToString d = Normal name
    /\ validateLoanRequest d = Throw e
    /\ processLoanOffer {| token := tok; data := d |} w
       = (Normal (responseHelper.errorResponse (Some "E999")
                    match NODE_ENV w with
                    | Some "production" => "Internal server error"
                    | _ => "Cannot read properties of " ++ name
                             ++ " (reading 'orderId')"
                    end),
          record (ConsoleError "Error processing loan offer:" e)
            (record (Call FnValidateLoanRequest) (record (Call FnValidateToken) w))).
Proof.
  intros Ht Hd. destruct (validateLoanRequest_throws d Hd) as (name & Hn & Hv).
  eexists. exists name. split; [exact Hn|]. split; [exact Hv|].
  rewrite (processLoanOffer_caught tok d w _ Ht Hv).
  destruct d; try discriminate Hd; injection Hn as <-; reflexivity.
Qed.

Lemma missing_data_in_production_example :
  fst (processLoanOffer {| token := Some sample_token; data := JNull |}
         {| NODE_ENV := Some "production"; events := [] |})
  = Normal (responseHelper.errorResponse (Some "E999") "Internal server error").
Proof.
  destruct (missing_data_is_a_server_error (Some sample_token) JNull
              {| NODE_ENV := Some "production"; events := [] |} eq_refl eq_refl)
    as (e & name & _ & _ & P).
  rewrite P. reflexivity.
Defined.
End ServiceProperties.

(** ** More on the calculator *)

Section CalculatorProperties.
Local Open Scope float_scope.
Variable pow_approx : float -> float -> float.

Lemma schedule_loop_step fuel mr e t m b :
  schedule_loop (S fuel) mr e t m b
  = if m <=? t then
      option_map
        (cons {| month := m;
                 emi := round2 e;
                 principalPaid := round2 (e - b * mr);
                 interestPaid := round2 (b * mr);
                 balance := Math_max 0 (round2 (b - (e - b * mr))) |})
        (schedule_loop fuel mr e t (m + 1) (b - (e - b * mr)))
    else Some [].
Proof. reflexivity. Qed.

Lemma schedule_loop_months mr e t : forall j k b l,
  schedule_loop (S j) mr e t (month_after k) b = Some l ->
  List.length l = j ->
  map month l = map month_after (seq k j).
Proof.
  induction j as [|j IH]; intros k b l H Hlen.
  - destruct l; [reflexivity|discriminate Hlen].
  - rewrite schedule_loop_step in H. destruct (month_after k <=? t).
    + change (month_after k + 1) with (month_after (S k)) in H.
      destruct (schedule_loop (S j) mr e t (month_after (S k)) _) as [l'|] eqn:E;
        [|discriminate H].
      cbn [option_map] in H. injection H as <-. cbn [map seq month]. f_equal.
      eapply IH; [exact E|]. simpl in Hlen. lia.
    + injection H as <-. discriminate Hlen.
Qed.

Lemma month_after_exact k : (k < 84)%nat -> month_after k = of_Z (Z.of_nat (S k)).
Proof.
  intros H. assert (T : months_exact 84 = true) by (vm_compute; reflexivity).
  unfold months_exact in T. rewrite forallb_forall in T.
  apply FloatAxioms.Leibniz.eqb_spec. apply T. apply in_seq. lia.
Qed.

Lemma schedule_months p r (n : nat) :
  (n <= 84)%nat ->
  exists schedule,
    generateAmortizationSchedule pow_approx (S n) p r (of_Z (Z.of_nat n)) = Some schedule
    /\ map month schedule = map (fun k => of_Z (Z.of_nat k)) (seq 1 n).
Proof.
  intros Hn. destruct (schedule_total pow_approx p r n Hn) as (s & Hs & Hlen).
  exists s. split; [exact Hs|].
  unfold generateAmortizationSchedule in Hs.
  rewrite (schedule_loop_months _ _ _ n 0%nat p s Hs Hlen).
  rewrite <- seq_shift, map_map. apply map_ext_in.
  intros k Hk. apply in_seq in Hk. apply month_after_exact. lia.
Qed.

Lemma mul_zero_one_div_zero x : x * 0 * 1 / 0 = nan.
Proof.
  apply (float_of_spec _ S754_nan).
  rewrite div_spec, mul_spec, mul_spec.
  change (Prim2SF 0) with (S754_zero false).
  change (Prim2SF 1) with (S754_finite false 4503599627370496 (-52)).
  destruct (Prim2SF x) as [s|s| |s m e]; try reflexivity; destruct s; reflexivity.
Qed.

(** [Math.pow(1, t)] is 1 or NaN once the engine returns 1 on ordinary
    exponents. *)
Lemma Math_pow_base_one t :
  pow_approx 1 t = 1 -> Math_pow pow_approx 1 t = 1 \/ Math_pow pow_approx 1 t = nan.
Proof.
  intros H. unfold Math_pow.
  destruct (is_nan t); [now right|].
  destruct (t =? 0); [now left|].
  change (is_nan 1) with false. change (1 =? infinity) with false.
  change (1 =? neg_infinity) with false. change (1 =? 0) with false.
  change (1 <? abs 1) with false. change (abs 1 =? 1) with true.
  change (1 <? 0) with false. cbn [andb].
  destruct (t =? infinity); [now right|].
  destruct (t =? neg_infinity); [now right|]. now left.
Qed.

Lemma calculateEMI_zero_rate p t :
  pow_approx 1 t = 1 -> calculateEMI pow_approx p 0 t = nan.
Proof.
  intros H. unfold calculateEMI.
  change (0 / (12 * 100)) with 0. change (1 + 0) with 1.
  destruct (Math_pow_base_one t H) as [E|E]; rewrite E.
  - change (1 - 1) with 0. rewrite mul_zero_one_div_zero. reflexivity.
  - rewrite mul_nan_r, div_nan_l. reflexivity.
Qed.
End CalculatorProperties.

Section CalculatorExtras.
Local Open Scope float_scope.

(** X10: for a whole number [n] of months up to 84 the schedule has one
    entry per period and its [month] fields are 1, 2, ..., [n] in this
    order. *)
Theorem schedule_periods_are_1_to_n (pow_approx : float -> float -> float)
    (p r : float) (n : nat) :
  (n <= 84)%nat ->
  exists schedule,
    generateAmortizationSchedule pow_approx (S n) p r (of_Z (Z.of_nat n)) = Some schedule
    /\ map month schedule = map (fun k => of_Z (Z.of_nat k)) (seq 1 n).
Proof. apply schedule_months. Qed.

Lemma schedule_periods_example :
  exists schedule,
    generateAmortizationSchedule Reference.pow_approx 4 250000 9.5 3 = Some schedule
    /\ map month schedule = [1; 2; 3].
Proof.
  apply (schedule_periods_are_1_to_n Reference.pow_approx 250000 9.5 3).
  apply Nat.leb_le. reflexivity.
Defined.

(** X11: a zero interest rate is not supported: on every engine whose
    [Math.pow(1, t)] is 1, [calculateEMI(p, 0, t)] is NaN (the formula
    divides zero by zero) whatever the principal and the term. *)
Theorem zero_rate_gives_nan (pow_approx : float -> float -> float) (p t : float) :
  pow_approx 1 t = 1 ->
  calculateEMI pow_approx p 0 t = nan.
Proof. apply calculateEMI_zero_rate. Qed.

Lemma zero_rate_example :
  Reference.pow_approx 1 36 = 1
  /\ calculateEMI Reference.pow_approx 250000 0 36 = nan.
Proof.
  assert (H : Reference.pow_approx 1 36 = 1) by (vm_compute; reflexivity).
  split; [exact H|]. exact (zero_rate_gives_nan Reference.pow_approx 250000 36 H).
Defined.
End CalculatorExtras.

(** ** The HTTP layer *)

Section HttpProperties.
Import Http.
Local Open Scope string_scope.

Lemma accepted_needs_truthy_data b : accepted b = true -> ToBoolean (data b) = true.
Proof.
  unfold accepted. destruct b as [tok d]. cbn [token data].
  destruct (validateToken tok); [|discriminate]. cbn [andb].
  destruct d as [| |b|n|s|l|ps]; try (intros _; reflexivity); intros H; exfalso;
    match type of H with
    | context [validateLoanRequest ?x] =>
        pose proof (validateLoanRequest_not_object x I) as N;
        destruct (validateLoanRequest x); congruence
    end.
Qed.

Lemma valid_token_not_missing t : validateToken t = true -> token_missing t = false.
Proof. destruct t as [[|c s]|]; try discriminate; reflexivity. Qed.

(** *** The controller *)

Lemma controller_reply (req : Request) (w : World) :
  exists r logged,
    processLoanOfferRequest req w
    = (Normal r, {| NODE_ENV := NODE_ENV w; events := events w ++ logged |})
    /\ status r = controller_status req
    /\ (forall label e,
          In (ConsoleError label e) logged
          <-> label = "Error processing loan offer:"
              /\ exists b, body req = Some b /\ ToBoolean (data b) = true
                           /\ validateToken (token b) = true
                           /\ validateLoanRequest (data b) = Throw e)
    /\ (forall b e,
          body req = Some b -> ToBoolean (data b) = true ->
          validateToken (token b) = true -> validateLoanRequest (data b) = Throw e ->
          exists resp,
            json r = Envelope resp
            /\ responseHelper.errorCode (responseHelper.data resp) = Some "E999")
    /\ (forall resp b,
          json r = Envelope resp -> body req = Some b ->
          validateToken (token b) = true ->
          responseHelper.errorCode (responseHelper.data resp) <> Some "E001").
Proof.
  assert (W : forall w0 : World,
             w0 = {| NODE_ENV := NODE_ENV w0; events := events w0 ++ [] |})
    by (intros [env evs]; cbn; now rewrite app_nil_r).
  unfold processLoanOfferRequest, controller_status, try_catch.
  destruct req as [[b|] a u]; cbn [body].
  2:{ eexists. exists []. split; [unfold retM; now rewrite <- W|].
      split; [reflexivity|]. split; [|split].
      - intros label e. split; [intros []|]. intros (_ & b & E & _). discriminate E.
      - intros b e E. discriminate E.
      - intros resp b _ E. discriminate E. }
  destruct b as [tok d]. cbn [token data].
  destruct tok as [[|c s]|]; cbn [token_missing String.eqb].
  1,3: eexists; exists []; (split; [unfold retM; now rewrite <- W|]);
       (split; [reflexivity|]); (split; [|split]);
       [ intros label e; (split; [intros []|]);
         intros (_ & b & E & _ & Ht & _); injection E as <-; discriminate Ht
       | intros b e E _ Ht; injection E as <-; discriminate Ht
       | intros resp b _ E Ht; injection E as <-; discriminate Ht ].
  set (b := {| token := Some (String c s); data := d |}).
  destruct (ToBoolean d) eqn:Hd; cbn [negb].
  2:{ eexists. exists []. split; [unfold retM; now rewrite <- W|].
      split; [reflexivity|]. split; [|split].
      - intros label e. split; [intros []|].
        intros (_ & b' & E & T & _). injection E as E. subst b'.
        unfold b in T. cbn [data] in T. rewrite Hd in T. discriminate T.
      - intros b' e E T. injection E as E. subst b'.
        unfold b in T. cbn [data] in T. rewrite Hd in T. discriminate T.
      - intros resp b' J _ _. injection J as <-. discriminate. }
  unfold bindM.
  destruct (processLoanOffer_cases b w)
    as (resp & logged & P & Hsr & Hlog & Hserver & Hcode).
  rewrite P. unfold retM. exists (reply (if (responseHelper.statusCode resp =? "SR")
                                         then 200 else 400) resp), logged.
  split; [reflexivity|]. cbn [status reply json]. rewrite Hsr. split.
  - destruct (accepted b); reflexivity.
  - split; [|split].
    + intros label e. rewrite Hlog. split.
      * intros (L & Ht & Hv). split; [exact L|]. exists b. auto.
      * intros (L & b' & E & _ & Ht & Hv). injection E as <-. auto.
    + intros b' e E _ Ht Hv. injection E as <-. exists resp.
      split; [reflexivity|]. now apply (Hserver e).
    + intros resp' b' J E Ht. injection J as <-. injection E as <-. now apply Hcode.
Qed.

(** X12: [processLoanOfferRequest] answers 200 exactly when the body holds
    a valid token and loan data that the validator accepts, and 401 exactly
    when the body is there but its token is missing or empty; every other
    request gets 400, also one whose token is too short.  It never answers
    500: an exception of the validator is caught inside [processLoanOffer],
    which logs it and answers with the server error "E999", sent with
    status 400; nothing else logs an error. *)
Theorem controller_status_classification (req : Request) (w : World) :
  exists r w',
    processLoanOfferRequest req w = (Normal r, w')
    /\ (status r = 200 <-> exists b, body req = Some b /\ accepted b = true)
    /\ (status r = 401 <-> exists b, body req = Some b /\ token_missing (token b) = true)
    /\ (status r = 200 \/ status r = 400 \/ status r = 401)
    /\ (forall label e,
          In (ConsoleError label e) (events w') ->
          In (ConsoleError label e) (events w)
          \/ exists b, body req = Some b /\ ToBoolean (data b) = true
                       /\ validateToken (token b) = true
                       /\ validateLoanRequest (data b) = Throw e)
    /\ (forall b e,
          body req = Some b -> ToBoolean (data b) = true ->
          validateToken (token b) = true -> validateLoanRequest (data b) = Throw e ->
          In (ConsoleError "Error processing loan offer:" e) (events w')
          /\ status r = 400
          /\ exists resp,
               json r = Envelope resp
               /\ responseHelper.errorCode (responseHelper.data resp) = Some "E999").
Proof.
  destruct (controller_reply req w) as (r & logged & P & Hs & Hlog & Hserver & _).
  exists r. eexists. split; [exact P|]. rewrite Hs. unfold controller_status.
  cbn [events]. split; [|split; [|split; [|split]]].
  - destruct (body req) as [b|]; [|split; [discriminate|intros (b & E & _); discriminate E]].
    destruct (token_missing (token b)) eqn:Hm.
    { split; [discriminate|]. intros (b' & E & A). injection E as <-.
      unfold accepted in A. apply andb_true_iff in A. destruct A as [A _].
      apply valid_token_not_missing in A. congruence. }
    destruct (ToBoolean (data b)) eqn:Hd; cbn [negb].
    + destruct (accepted b) eqn:A.
      * split; [intros _; eauto | reflexivity].
      * split; [discriminate|]. intros (b' & E & A'). injection E as <-. congruence.
    + split; [discriminate|]. intros (b' & E & A'). injection E as <-.
      apply accepted_needs_truthy_data in A'. congruence.
  - destruct (body req) as [b|]; [|split; [discriminate|intros (b & E & _); discriminate E]].
    destruct (token_missing (token b)) eqn:Hm.
    { split; [intros _; eauto | reflexivity]. }
    split.
    + destruct (negb (ToBoolean (data b))); [discriminate|].
      destruct (accepted b); discriminate.
    + intros (b' & E & Hm'). injection E as <-. congruence.
  - destruct (body req) as [b|]; [|auto].
    destruct (token_missing (token b)); [auto|].
    destruct (negb (ToBoolean (data b))); [auto|]. destruct (accepted b); auto.
  - intros label e Hin. apply in_app_or in Hin. destruct Hin as [Hin|Hin]; [now left|].
    right. apply Hlog in Hin. exact (proj2 Hin).
  - intros b e Hb Hd Ht Hv. split; [|split].
    + apply in_or_app. right. apply Hlog. split; [reflexivity|]. exists b. auto.
    + rewrite Hb, (valid_token_not_missing _ Ht), Hd. cbn [negb].
      unfold accepted. now rewrite Ht, Hv.
    + now apply (Hserver b e).
Qed.

(** *** The middleware *)

Section MiddlewareFacts.
Variable hmac_hex : string -> string.
Variable clock : nat -> float.

Lemma authenticateToken_no_body req next w :
  body req = None ->
  authenticateToken hmac_hex clock req next w
  = (Normal (reply 400 (responseHelper.errorResponse (Some "E002")
                          "Request body is missing")), w).
Proof. intros Hb. unfold authenticateToken, try_catch. now rewrite Hb. Qed.

Lemma authenticateToken_rejects req next w b :
  body req = Some b ->
  validateToken (token b) = false ->
  authenticateToken hmac_hex clock req next w
  = (Normal (reply 401 (responseHelper.authError
                          (if token_missing (token b)
                           then "Authentication token is missing"
                           else "Invalid or expired token"))), w).
Proof.
  intros Hb Ht. unfold authenticateToken, try_catch. rewrite Hb.
  destruct (token b) as [[|c s]|]; try reflexivity.
  unfold verifyToken. change (isValidTokenFormat (Some (String c s)))
    with (validateToken (Some (String c s))). rewrite Ht. reflexivity.
Qed.

Lemma authenticateToken_expired req next w b t :
  body req = Some b ->
  token b = Some t ->
  validateToken (Some t) = true ->
  PrimFloat.ltb (PrimFloat.add (clock 1) (1000 * 60 * 30)%float) (clock 2) = true ->
  authenticateToken hmac_hex clock req next w
  = (Normal (reply 401 (responseHelper.authError "Token has expired")), w).
Proof.
  intros Hb Ht Hv Hj. unfold authenticateToken, try_catch. rewrite Hb, Ht.
  destruct t as [|c s]; [discriminate Hv|].
  unfold verifyToken. change (isValidTokenFormat (Some (String c s)))
    with (validateToken (Some (String c s))). rewrite Hv.
  cbn [expiresAt]. rewrite Hj. reflexivity.
Qed.

Lemma authenticateToken_passes req next w b t r w' :
  no_clock_jump clock ->
  body req = Some b ->
  token b = Some t ->
  validateToken (Some t) = true ->
  next (authenticated hmac_hex req t) w = (Normal r, w') ->
  authenticateToken hmac_hex clock req next w = (Normal r, w').
Proof.
  intros steady Hb Ht Hv Hn. unfold authenticateToken, try_catch. rewrite Hb, Ht.
  destruct t as [|c s]; [discriminate Hv|].
  unfold verifyToken. change (isValidTokenFormat (Some (String c s)))
    with (validateToken (Some (String c s))). rewrite Hv.
  cbn [expiresAt userId]. unfold no_clock_jump in steady. rewrite steady.
  unfold authenticated in Hn. rewrite Hb in Hn. rewrite Hn. reflexivity.
Qed.
End MiddlewareFacts.

(** X13: [authenticateToken] lets a request through exactly as the service's
    own [validateToken] would: a request without body is answered 400, one
    whose token is missing, empty or shorter than 32 characters is answered
    401 without the next handler being run; otherwise the next handler runs
    on the request with the user attached and its reply is the reply, unless
    the clock advanced by more than 30 minutes between two readings, in
    which case the answer is 401 "Token has expired". *)
Theorem authenticateToken_gate (hmac_hex : string -> string) (clock : nat -> float)
    (req : Request) (next : Request -> M Reply) (w : World) :
  match body req with
  | None =>
      authenticateToken hmac_hex clock req next w
      = (Normal (reply 400 (responseHelper.errorResponse (Some "E002")
                              "Request body is missing")), w)
  | Some b =>
      (validateToken (token b) = false ->
       exists message,
         authenticateToken hmac_hex clock req next w
         = (Normal (reply 401 (responseHelper.authError message)), w))
      /\ (forall t r w',
            token b = Some t -> validateToken (Some t) = true ->
            no_clock_jump clock ->
            next (authenticated hmac_hex req t) w = (Normal r, w') ->
            authenticateToken hmac_hex clock req next w = (Normal r, w'))
      /\ (forall t,
            token b = Some t -> validateToken (Some t) = true ->
            ~ no_clock_jump clock ->
            authenticateToken hmac_hex clock req next w
            = (Normal (reply 401 (responseHelper.authError "Token has expired")), w))
  end.
Proof.
  destruct (body req) as [b|] eqn:Hb.
  - split; [|split].
    3:{ intros t Et Hv Hj. apply authenticateToken_expired with b t; auto.
        unfold no_clock_jump in Hj. now apply not_false_is_true. }
    + intros Ht.
      exists (if token_missing (token b) then "Authentication token is missing"
              else "Invalid or expired token").
      apply authenticateToken_rejects; assumption.
    + intros t r w' Et Hv Hc Hn. now apply authenticateToken_passes with b t.
  - now apply authenticateToken_no_body.
Qed.

Lemma authenticateToken_gate_example :
  authenticateToken sample_digest sample_clock
    {| body := Some {| token := Some sample_token; data := JObj sample_data |};
       action := Some "loanOffer"; user := None |}
    processLoanOfferRequest idle
  = processLoanOfferRequest
      {| body := Some {| token := Some sample_token; data := JObj sample_data |};
         action := Some "loanOffer";
         user := Some {| id := "user_9f86d08188"; user_token := sample_token |} |}
      idle.
Proof.
  destruct (processLoanOfferRequest
              {| body := Some {| token := Some sample_token; data := JObj sample_data |};
                 action := Some "loanOffer";
                 user := Some {| id := "user_9f86d08188"; user_token := sample_token |} |}
              idle) as [[r|e] w'] eqn:E; [|vm_compute in E; discriminate E].
  apply (proj1 (proj2 (authenticateToken_gate sample_digest sample_clock
                  {| body := Some {| token := Some sample_token;
                                     data := JObj sample_data |};
                     action := Some "loanOffer"; user := None |}
                  processLoanOfferRequest idle)) sample_token r w').
  - reflexivity.
  - reflexivity.
  - reflexivity.
  - exact E.
Defined.

(** *** The admin chain *)

Lemma index_admin_has_m s :
  index 0 "admin" s <> None -> In "m"%char (list_ascii_of_string s).
Proof.
  induction s as [|b s IH]; [intros H; now contradiction H|].
  cbn [index]. destruct (prefix "admin" (String b s)) eqn:P.
  - intros _. cbn [prefix] in P.
    destruct (ascii_dec "a" b); [|discriminate P].
    destruct s as [|b1 s]; cbn [prefix] in P; [discriminate P|].
    destruct (ascii_dec "d" b1); [|discriminate P].
    destruct s as [|b2 s]; cbn [prefix] in P; [discriminate P|].
    destruct (ascii_dec "m" b2); [|discriminate P].
    subst. simpl. auto.
  - intros H. right. apply IH. destruct (index 0 "admin" s); congruence.
Qed.

Lemma substring_chars c s : forall n m,
  In c (list_ascii_of_string (substring n m s)) -> In c (list_ascii_of_string s).
Proof.
  induction s as [|a s IH]; intros n m H.
  - destruct n, m; simpl in H; contradiction.
  - destruct n as [|n].
    + destruct m as [|m]; [contradiction H|]. simpl in H. destruct H as [H|H]; [now left|].
      right. eapply IH. exact H.
    + right. eapply IH. exact H.
Qed.

Lemma chars_append c s1 s2 :
  In c (list_ascii_of_string (s1 ++ s2)) ->
  In c (list_ascii_of_string s1) \/ In c (list_ascii_of_string s2).
Proof.
  induction s1 as [|a s1 IH]; simpl; [auto|]. intros [H|H]; [auto|].
  destruct (IH H); auto.
Qed.

(** A user id made of "user_" and hexadecimal digits does not contain
    "admin". *)
Lemma hex_user_id_not_admin hash :
  hex_only hash = true -> includes ("user_" ++ substring 0 10 hash) "admin" = false.
Proof.
  intros Hh. unfold includes.
  destruct (index 0 "admin" ("user_" ++ substring 0 10 hash)) eqn:E; [|reflexivity].
  exfalso.
  assert (M : In "m"%char (list_ascii_of_string ("user_" ++ substring 0 10 hash)))
    by (apply index_admin_has_m; congruence).
  apply chars_append in M. destruct M as [M|M].
  - simpl in M. repeat (destruct M as [M|M]; [discriminate M|]). exact M.
  - apply substring_chars in M. unfold hex_only in Hh.
    rewrite forallb_forall in Hh. specialize (Hh _ M). discriminate Hh.
Qed.

(** X14: the handler behind [authenticateToken] and [requireAdmin] is never
    run: a user id is "user_" followed by hexadecimal digits of the digest
    and so never contains "admin".  Whatever the request, the clock and the
    handler, the chain answers 400, 401 or 403 and leaves the world as it
    was. *)
Theorem admin_handler_unreachable (hmac_hex : string -> string) (clock : nat -> float)
    (handler handler' : Request -> M Reply) (req : Request) (w : World) :
  (forall t, hex_only (hmac_hex t) = true) ->
  route_admin hmac_hex clock handler req w = route_admin hmac_hex clock handler' req w
  /\ exists r, route_admin hmac_hex clock handler req w = (Normal r, w)
               /\ (status r = 400 \/ status r = 401 \/ status r = 403).
Proof.
  intros Hhex. unfold route_admin, authenticateToken, try_catch.
  destruct (body req) as [b|]; [|split; [reflexivity|eexists; split; [reflexivity|auto]]].
  destruct (token b) as [[|c s]|];
    try (split; [reflexivity|eexists; split; [reflexivity|auto]]).
  destruct (verifyToken hmac_hex clock (String c s)) as [d|] eqn:V;
    [|split; [reflexivity|eexists; split; [reflexivity|auto]]].
  destruct (PrimFloat.ltb (expiresAt d) (clock 2));
    [split; [reflexivity|eexists; split; [reflexivity|auto]]|].
  unfold verifyToken in V. destruct (isValidTokenFormat (Some (String c s))); [|discriminate V].
  injection V as <-. unfold requireAdmin. cbn [user id userId].
  pose proof (hex_user_id_not_admin _ (Hhex (String c s))) as A.
  cbn [append] in A. rewrite A. cbn [negb].
  split; [reflexivity|eexists; split; [reflexivity|auto]].
Qed.

Lemma admin_handler_unreachable_example :
  fst (route_admin sample_digest sample_clock
         (fun _ => retM (reply 200 (responseHelper.successResponse
                                      {| responseHelper.errorMessage := "";
                                         responseHelper.errorCode := Some "";
                                         responseHelper.redirectionURL := JStr "" |})))
         {| body := Some {| token := Some sample_token; data := JUndefined |};
            action := None; user := None |} idle)
  = Normal (reply 403 (responseHelper.errorResponse (Some "E403")
                         "Insufficient permissions to perform this action")).
Proof.
  rewrite (proj1 (admin_handler_unreachable sample_digest sample_clock _
                    (fun _ => liftM (Throw (TypeError "never run")))
                    {| body := Some {| token := Some sample_token; data := JUndefined |};
                       action := None; user := None |} idle
                    (fun _ => eq_refl))).
  reflexivity.
Defined.
End HttpProperties.

Section HttpRoutes.
Import Http.
Local Open Scope string_scope.

(** X15: on [POST /fkApiServices.do?action=loanOffer], with a clock that
    does not jump, the status is 401 exactly when the body's token is not a
    string of at least 32 characters, 200 exactly when the token is valid
    and the validator accepts the loan data, and 400 otherwise (no body,
    or loan data missing or rejected).  Behind the middleware the service's
    own token check cannot fail: an answer carrying "E001" always has
    status 401. *)
Theorem loan_offer_route_status (hmac_hex : string -> string) (clock : nat -> float)
    (req : Request) (w : World) :
  no_clock_jump clock ->
  action req = Some "loanOffer" ->
  exists r w',
    route_fkApiServices hmac_hex clock req w = (Normal r, w')
    /\ status r
       = match body req with
         | None => 400
         | Some b => if validateToken (token b) then (if accepted b then 200 else 400)
                     else 401
         end
    /\ (forall resp,
          json r = Envelope resp ->
          responseHelper.errorCode (responseHelper.data resp) = Some "E001" ->
          status r = 401).
Proof.
  intros Hc Ha. unfold route_fkApiServices. rewrite Ha. cbn [String.eqb Ascii.eqb Bool.eqb].
  destruct (body req) as [b|] eqn:Hb.
  2:{ rewrite (authenticateToken_no_body hmac_hex clock req _ w Hb).
      eexists; eexists. split; [reflexivity|]. split; [reflexivity|].
      intros resp E. injection E as <-. discriminate. }
  destruct (validateToken (token b)) eqn:Ht.
  - destruct (token b) as [t|] eqn:Et; [|discriminate Ht].
    destruct (controller_reply (authenticated hmac_hex req t) w)
      as (r & logged & P & Hs & _ & _ & Hcode).
    exists r. eexists. split.
    { eapply authenticateToken_passes; eauto. }
    unfold controller_status, authenticated in Hs. cbn [body] in Hs. rewrite Hb in Hs.
    rewrite Et, (valid_token_not_missing _ Ht) in Hs. split.
    + rewrite Hs. destruct (ToBoolean (data b)) eqn:Hd; cbn [negb]; [reflexivity|].
      destruct (accepted b) eqn:A; [|reflexivity].
      apply accepted_needs_truthy_data in A. congruence.
    + intros resp J E. exfalso.
      apply (Hcode resp b J); [unfold authenticated; cbn [body]; exact Hb | | exact E].
      now rewrite Et.
  - rewrite (authenticateToken_rejects hmac_hex clock req _ w b Hb Ht).
    eexists; eexists. split; [reflexivity|]. split; reflexivity.
Qed.

Lemma loan_offer_route_example :
  no_clock_jump sample_clock
  /\ exists r w',
       route_fkApiServices sample_digest sample_clock
         {| body := Some {| token := Some "too short";
                            data := JObj sample_data |};
            action := Some "loanOffer"; user := None |} idle = (Normal r, w')
       /\ status r = 401.
Proof.
  assert (Hc : no_clock_jump sample_clock) by reflexivity.
  split; [exact Hc|].
  destruct (loan_offer_route_status sample_digest sample_clock
              {| body := Some {| token := Some "too short"; data := JObj sample_data |};
                 action := Some "loanOffer"; user := None |} idle Hc eq_refl)
    as (r & w' & P & Hs & _).
  exists r, w'. split; [exact P|exact Hs].
Defined.

Lemma validateLoanDetails_reply b a u w vr :
  ToBoolean (data b) = true ->
  validateLoanRequest (data b) = Normal vr ->
  validateLoanDetails {| body := Some b; action := a; user := u |} w
  = (Normal (if isValid vr
             then {| status := 200;
                     json := ValidatedBody
                               {| validated_message := "Loan details are valid";
                                  valid := true;
                                  validated_statusMessage := "Success";
                                  validated_statusCode := "SR" |} |}
             else reply 400 (responseHelper.errorResponse (errorCode vr) (message vr))),
     w).
Proof.
  intros Hd Hv.
  unfold validateLoanDetails, try_catch, bindM, liftM. cbn [body].
  rewrite Hd, Hv. cbn [negb]. destruct (isValid vr); reflexivity.
Qed.

Lemma validateLoanDetails_caught b a u w e :
  ToBoolean (data b) = true ->
  validateLoanRequest (data b) = Throw e ->
  exists resp,
    validateLoanDetails {| body := Some b; action := a; user := u |} w
    = (Normal (reply 500 resp), record (ConsoleError "Error validating loan details:" e) w)
    /\ responseHelper.errorCode (responseHelper.data resp) = Some "E999".
Proof.
  intros Hd Hv.
  unfold validateLoanDetails, try_catch, bindM, liftM, console_error. cbn [body].
  rewrite Hd, Hv. cbn [negb]. eexists. split; reflexivity.
Qed.

(** X16: [validateLoanDetails] never throws and checks no token.  It
    answers 500 exactly when the request has no body (reading [data] off
    it throws) or the validator throws on loan data that is truthy (an
    identifier that cannot be converted to a string); 200 exactly when the
    validator accepts the body's loan data, and 400 otherwise; when the
    validator rejects loan data that is truthy the answer carries exactly
    the validator's code and message.  Only an answer of 500 writes to the
    log. *)
Theorem validateLoanDetails_status (req : Request) (w : World) :
  exists r w',
    validateLoanDetails req w = (Normal r, w')
    /\ (status r = 500
        <-> body req = None
            \/ exists b e, body req = Some b /\ ToBoolean (data b) = true
                           /\ validateLoanRequest (data b) = Throw e)
    /\ (status r = 200
        <-> exists b vr, body req = Some b
                         /\ validateLoanRequest (data b) = Normal vr /\ isValid vr = true)
    /\ (status r = 200 \/ status r = 400 \/ status r = 500)
    /\ (forall b vr,
          body req = Some b -> validateLoanRequest (data b) = Normal vr ->
          isValid vr = false -> ToBoolean (data b) = true ->
          r = reply 400 (responseHelper.errorResponse (errorCode vr) (message vr)))
    /\ (status r <> 500 -> w' = w).
Proof.
  destruct req as [[b|] a u]; cbn [body].
  - destruct (ToBoolean (data b)) eqn:Hd.
    + destruct (validateLoanRequest (data b)) as [vr|e] eqn:Hv.
      * rewrite (validateLoanDetails_reply b a u w vr Hd Hv).
        eexists; eexists. split; [reflexivity|].
        assert (N : ~ (Some b = None
                       \/ exists b' e, Some b = Some b' /\ ToBoolean (data b') = true
                                        /\ validateLoanRequest (data b') = Throw e)).
        { intros [E | (b' & e & E & _ & Hv')]; [discriminate E|].
          injection E as <-. congruence. }
        destruct (isValid vr) eqn:Hi; cbn [status reply].
        -- split; [split; [discriminate|intros H; now destruct N]|].
           split; [|split; [auto|split; [|reflexivity]]].
           ++ split; [intros _; exists b, vr; auto | reflexivity].
           ++ intros b' vr' E Hv' Hi'. injection E as <-. congruence.
        -- split; [split; [discriminate|intros H; now destruct N]|].
           split; [|split; [auto|split; [|reflexivity]]].
           ++ split; [discriminate|]. intros (b' & vr' & E & Hv' & Hi').
              injection E as <-. congruence.
           ++ intros b' vr' E Hv' Hi' _. injection E as <-.
              rewrite Hv in Hv'. injection Hv' as <-. reflexivity.
      * destruct (validateLoanDetails_caught b a u w e Hd Hv) as (resp & R & _).
        rewrite R. eexists; eexists. split; [reflexivity|]. cbn [status reply].
        split; [split; [intros _; right; exists b, e; auto|reflexivity]|].
        split; [|split; [auto|split]].
        -- split; [discriminate|]. intros (b' & vr' & E & Hv' & _).
           injection E as <-. congruence.
        -- intros b' vr' E Hv'. injection E as <-. congruence.
        -- intros H. now destruct H.
    + eexists; eexists. split.
      { unfold validateLoanDetails, try_catch. cbn [body]. rewrite Hd. reflexivity. }
      cbn [status reply]. split; [|split; [|split; [auto|split; [|reflexivity]]]].
      * split; [discriminate|]. intros [E | (b' & e & E & T & _)]; [discriminate E|].
        injection E as <-. congruence.
      * split; [discriminate|]. intros (b' & vr' & E & Hv' & Hi'). injection E as <-.
        exfalso.
        destruct (valid_data_is_object _ _ Hv' Hi') as (ps & E & _).
        rewrite E in Hd. discriminate Hd.
      * intros b' vr' E _ _ T. injection E as <-. congruence.
  - eexists; eexists. split; [reflexivity|]. cbn [status reply].
    split; [split; [auto|reflexivity]|]. split; [|split; [auto|split]].
    + split; [discriminate|]. intros (b' & vr' & E & _). discriminate E.
    + intros b' vr' E. discriminate E.
    + intros H. now destruct H.
Qed.
End HttpRoutes.
